(** * list_freezones.py: the free-zone listing script

    The script shells out to curl for [GET /api/free-zones], decodes the
    captured bytes with [json.loads], prints two header lines and one line
    per element, and turns any exception into [Error: ...] plus exit
    status 1.

    The embedding follows the script statement by statement.  What the
    script takes from the interpreter and its environment is kept apart in
    the interface [Interp]: the float type with its [repr], the characters
    [str.isprintable] accepts, [json.loads], [str] of an exception, and
    the characters the encoding of standard output has.  A Python str is
    the list of its code points ([text]); the bytes curl wrote are a
    [string].  Standard output is the text written to it; [print] raises
    a UnicodeEncodeError, and writes nothing, on a text with a character
    standard output cannot encode. *)

From Stdlib Require Import String Ascii List ZArith NArith Lia Bool.
From Stdlib Require Import DecimalString.
Import ListNotations.
Open Scope list_scope.

(** ** Text *)

(** A Python str: its code points. *)
Definition text : Type := list N.

(** The str of a literal of the script. *)
Definition lit (s : string) : text := map N_of_ascii (list_ascii_of_string s).

Definition LF : N := 10.
Definition nl : text := [LF].

Definition squote : N := 39.
Definition dquote : N := 34.
Definition backslash : N := 92.

Fixpoint text_eqb (a b : text) : bool :=
  match a, b with
  | [], [] => true
  | x :: a', y :: b' => N.eqb x y && text_eqb a' b'
  | _, _ => false
  end.

(** [str.join] *)
Fixpoint join (sep : text) (parts : list text) : text :=
  match parts with
  | [] => []
  | [p] => p
  | p :: rest => p ++ sep ++ join sep rest
  end.

Fixpoint mem_char (c : N) (s : text) : bool :=
  match s with
  | [] => false
  | d :: s' => N.eqb c d || mem_char c s'
  end.

(** A text with no line feed in it: printed, it is one line. *)
Definition one_line (s : text) : bool := negb (mem_char LF s).

(** A text of characters below 256: what the messages of exceptions are
    made of. *)
Definition small (t : text) : bool := forallb (fun c => c <? 256)%N t.

(** The number of line feeds in a text. *)
Fixpoint line_feeds (s : text) : nat :=
  match s with
  | [] => 0
  | c :: s' => (if N.eqb c LF then 1 else 0) + line_feeds s'
  end.

(** The lines of a text, split at line feeds; a last piece without a line
    feed counts when it is not empty. *)
Fixpoint lines (s : text) : list text :=
  match s with
  | [] => []
  | c :: s' =>
      if N.eqb c LF then [] :: lines s'
      else match lines s' with
           | [] => [[c]]
           | l :: ls => (c :: l) :: ls
           end
  end.

(** The text of printed lines: each followed by a line feed. *)
Fixpoint unlines (ls : list text) : text :=
  match ls with
  | [] => []
  | l :: rest => l ++ nl ++ unlines rest
  end.

Fixpoint starts_with (p s : text) : bool :=
  match p, s with
  | [], _ => true
  | a :: p', b :: s' => N.eqb a b && starts_with p' s'
  | _ :: _, [] => false
  end.

(** ** Python values, as [json.loads] builds them *)

#[local] Set Warnings "-register-all".

Inductive pyval (F : Type) : Type :=
| PNone
| PBool (b : bool)
| PInt (n : Z)
| PFloat (x : F)
| PStr (s : text)
| PList (elems : list (pyval F))
| PDict (items : list (text * pyval F)).

Arguments PNone {F}.
Arguments PBool {F} b.
Arguments PInt {F} n.
Arguments PFloat {F} x.
Arguments PStr {F} s.
Arguments PList {F} elems.
Arguments PDict {F} items.

Inductive pytype : Type :=
| TNoneType | TBool | TInt | TFloat | TStr | TList | TDict.

Definition type_of {F} (v : pyval F) : pytype :=
  match v with
  | PNone => TNoneType
  | PBool _ => TBool
  | PInt _ => TInt
  | PFloat _ => TFloat
  | PStr _ => TStr
  | PList _ => TList
  | PDict _ => TDict
  end.

(** [d[key]] on the items of a dict, [None] when the key is absent. *)
Fixpoint dict_get {A} (key : text) (items : list (text * A)) : option A :=
  match items with
  | [] => None
  | (k, v) :: rest => if text_eqb k key then Some v else dict_get key rest
  end.

Definition is_array {F} (v : pyval F) : bool :=
  match v with
  | PList _ => true
  | _ => false
  end.

(** The empty object [{}] and the empty string. *)
Definition empty_object_or_string {F} (v : pyval F) : bool :=
  match v with
  | PDict [] => true
  | PStr [] => true
  | _ => false
  end.

Definition has_key {F} (key : string) (v : pyval F) : bool :=
  match v with
  | PDict items =>
      match dict_get (lit key) items with
      | Some _ => true
      | None => false
      end
  | _ => false
  end.

(** An element as the listing expects it: an object with [id] and [name]. *)
Definition well_formed_zone {F} (v : pyval F) : bool :=
  has_key "id" v && has_key "name" v.

(** The key the f-string misses in an object: it reads [id] first, then
    [name]. *)
Definition missing_key {A} (items : list (text * A)) : option string :=
  match dict_get (lit "id") items, dict_get (lit "name") items with
  | None, _ => Some "id"%string
  | Some _, None => Some "name"%string
  | Some _, Some _ => None
  end.

(** A value that is no str with a line feed in it. *)
Definition no_line_feed_str {F} (v : pyval F) : bool :=
  match v with
  | PStr s => one_line s
  | _ => true
  end.

(** An object whose [id] and [name] are there and are such values. *)
Definition plain_zone {F} (v : pyval F) : bool :=
  match v with
  | PDict items =>
      match dict_get (lit "id") items, dict_get (lit "name") items with
      | Some id_, Some name => no_line_feed_str id_ && no_line_feed_str name
      | _, _ => false
      end
  | _ => false
  end.

(** ** Exceptions *)

Inductive type_error : Type :=
| NotIterable (t : pytype)
| NotSubscriptable (t : pytype)
| IndexNotInteger (t : pytype).

(** The exceptions the script can meet.  [ValueError] stands for the
    json and codec errors of [json.loads], which are ValueErrors. *)
Inductive exn : Type :=
| OSError (msg : string)
| CalledProcessError (returncode : Z) (cmd : list string) (output : string)
| ValueError (msg : string)
| RecursionError (msg : string)
| TypeError (why : type_error)
| KeyError (key : string)
| UnicodeEncodeError (object : text).

(** ** [repr] and [str] *)

Definition int_repr (n : Z) : text := lit (NilZero.string_of_int (Z.to_int n)).

Definition hex_digit (n : N) : N :=
  if (n <? 10)%N then (48 + n)%N else (87 + n)%N.

(** [width] hexadecimal digits of [n], lower case. *)
Fixpoint hex (width : nat) (n : N) : text :=
  match width with
  | O => []
  | S w => hex w (n / 16) ++ [hex_digit (n mod 16)]
  end.

Section Repr.
Context {F : Type} (isprintable : N -> bool) (float_repr : F -> text).

Definition repr_char (quote c : N) : text :=
  if N.eqb c quote || N.eqb c backslash then [backslash; c]
  else if (c =? 9)%N then lit "\t"
  else if (c =? 10)%N then lit "\n"
  else if (c =? 13)%N then lit "\r"
  else if (c <? 32)%N || (c =? 127)%N then lit "\x" ++ hex 2 c
  else if (c <? 127)%N then [c]
  else if isprintable c then [c]
  else if (c <? 256)%N then lit "\x" ++ hex 2 c
  else if (c <? 65536)%N then lit "\u" ++ hex 4 c
  else lit "\U" ++ hex 8 c.

Fixpoint repr_chars (quote : N) (s : text) : text :=
  match s with
  | [] => []
  | c :: s' => repr_char quote c ++ repr_chars quote s'
  end.

(** [repr] of a str: single quotes, unless the text has a single quote and
    no double quote. *)
Definition str_repr (s : text) : text :=
  let quote := if mem_char squote s && negb (mem_char dquote s) then dquote else squote in
  quote :: repr_chars quote s ++ [quote].

Fixpoint py_repr (v : pyval F) : text :=
  match v with
  | PNone => lit "None"
  | PBool true => lit "True"
  | PBool false => lit "False"
  | PInt n => int_repr n
  | PFloat x => float_repr x
  | PStr s => str_repr s
  | PList elems => lit "[" ++ join (lit ", ") (map py_repr elems) ++ lit "]"
  | PDict items =>
      lit "{" ++ join (lit ", ")
                   (map (fun kv => match kv with
                                   | (k, w) => str_repr k ++ lit ": " ++ py_repr w
                                   end) items) ++ lit "}"
  end.

(** [str(v)]: the text itself for a str, [repr(v)] for the other types. *)
Definition py_str (v : pyval F) : text :=
  match v with
  | PStr s => s
  | _ => py_repr v
  end.

End Repr.

(** ** What the script takes from the interpreter

    [pyfloat] is the interpreter's float type and [float_repr] its [repr];
    [isprintable] is [str.isprintable] on a character, which [repr]
    consults beyond ASCII; [json_loads] is [json.loads] on the captured
    bytes, returning the decoded value or the exception it raises;
    [exn_str] is [str(e)], the text an exception prints as;
    [encodable_char] tells the characters the encoding of standard output
    has.  The exceptions of [json.loads] print as one line, every encoding
    has the ASCII characters, and the text of an exception is made of
    characters standard output has. *)

Class Interp : Type := {
  pyfloat : Type;
  float_repr : pyfloat -> text;
  isprintable : N -> bool;
  json_loads : string -> exn + pyval pyfloat;
  exn_str : exn -> text;
  encodable_char : N -> bool;
  json_error_one_line :
    forall (doc : string) (e : exn),
      json_loads doc = inl e -> one_line (exn_str e) = true;
  ascii_encodable :
    forall c : N, (c < 128)%N -> encodable_char c = true;
  error_encodable :
    forall e : exn, forallb encodable_char (exn_str e) = true
}.

(** The values of an interpreter. *)
Abbreviation value := (pyval pyfloat).

(** ** The child process

    What became of the curl child: it could not be started, or it ran to
    the end with an exit status and the bytes it wrote to its standard
    output. *)

Inductive child : Type :=
| NotStarted (why : string)
| Exited (returncode : Z) (captured : string).

(** [subprocess.check_output]: the captured bytes when the status is 0. *)
Definition check_output (cmd : list string) (c : child) : exn + string :=
  match c with
  | NotStarted why => inl (OSError why)
  | Exited rc captured =>
      if (rc =? 0)%Z then inr captured else inl (CalledProcessError rc cmd captured)
  end.

(** ** Statements: exceptions over the text written so far *)

Class Monad (M : Type -> Type) : Type := {
  ret : forall {A}, A -> M A;
  bind : forall {A B}, M A -> (A -> M B) -> M B
}.

Notation "x <- m ;; k" := (bind m (fun x => k))
  (at level 61, m at next level, right associativity).
Notation "m ;; k" := (bind m (fun _ => k))
  (at level 61, right associativity).

(** An expression: a value, or the exception it raises. *)
Definition exc (A : Type) : Type := (exn + A)%type.

#[export] Instance exc_monad : Monad exc := {
  ret := fun A a => inr a;
  bind := fun A B m k => match m with inl e => inl e | inr a => k a end
}.

(** A statement: from the text on standard output to what it returns or
    raises, and the text afterwards.  A raise keeps what was printed. *)
Definition io (A : Type) : Type := text -> exc A * text.

#[export] Instance io_monad : Monad io := {
  ret := fun A a out => (inr a, out);
  bind := fun A B m k out =>
    match m out with
    | (inl e, out') => (inl e, out')
    | (inr a, out') => k a out'
    end
}.

Definition eval {A} (r : exc A) : io A := fun out => (r, out).

(** [for x in xs: body] *)
Fixpoint for_each {A} (xs : list A) (body : A -> io unit) : io unit :=
  match xs with
  | [] => ret tt
  | x :: rest => body x ;; for_each rest body
  end.

(** ** The script *)

Section Script.
Context {I : Interp}.

(** A text standard output can encode. *)
Definition encodable (s : text) : bool := forallb encodable_char s.

(** [print(s)]: the text and a line feed, or a UnicodeEncodeError and
    nothing written. *)
Definition print (s : text) : io unit :=
  fun out =>
    if encodable s then (inr tt, out ++ s ++ nl)
    else (inl (UnicodeEncodeError s), out).

(** What [for zone in v] walks over: the elements of a list, the
    characters of a str, the keys of a dict. *)
Definition py_iter (v : value) : exc (list value) :=
  match v with
  | PList elems => inr elems
  | PStr s => inr (map (fun c => PStr [c]) s)
  | PDict items => inr (map (fun kv => PStr (fst kv)) items)
  | _ => inl (TypeError (NotIterable (type_of v)))
  end.

(** [v[key]] for a str literal [key]. *)
Definition subscript (v : value) (key : string) : exc value :=
  match v with
  | PDict items =>
      match dict_get (lit key) items with
      | Some w => inr w
      | None => inl (KeyError key)
      end
  | PList _ | PStr _ => inl (TypeError (IndexNotInteger (type_of v)))
  | _ => inl (TypeError (NotSubscriptable (type_of v)))
  end.

(** [str(v)] on this interpreter. *)
Definition str_ (v : value) : text := py_str isprintable float_repr v.

(** The f-string of the loop body. *)
Definition format_zone (zone : value) : exc text :=
  id_ <- subscript zone "id" ;;
  name <- subscript zone "name" ;;
  ret (lit "ID: " ++ str_ id_ ++ lit " - Name: " ++ str_ name).

(** The loop body. *)
Definition print_zone (zone : value) : io unit :=
  line <- eval (format_zone zone) ;;
  print line.

(** What the loop body does on an element: the line it prints, or the
    exception of the f-string or of [print]. *)
Definition zone_line (zone : value) : exc text :=
  line <- format_zone zone ;;
  if encodable line then ret line else inl (UnicodeEncodeError line).

(** The line of an element, when the f-string gives one, is a text
    standard output can encode. *)
Definition zone_encodable (zone : value) : bool :=
  match format_zone zone with
  | inr line => encodable line
  | inl _ => true
  end.

(** What [json.loads] gave lets the loop run to its end at once or walk
    over an array: an array, the empty object or the empty string. *)
Definition array_or_empty (r : exc value) : bool :=
  match r with
  | inr v => is_array v || empty_object_or_string v
  | inl _ => false
  end.

Definition curl_cmd : list string :=
  ["curl"; "-X"; "GET"; "http://localhost:5000/api/free-zones"]%string.

Definition header1 : text := lit "Available Free Zones:".
Definition header2 : text := lit "---------------------".

(** The body of the [try]. *)
Definition listing (c : child) : io unit :=
  output <- eval (check_output curl_cmd c) ;;
  freezones <- eval (json_loads output) ;;
  print header1 ;;
  print header2 ;;
  zones <- eval (py_iter freezones) ;;
  for_each zones print_zone.

(** The f-string of the handler. *)
Definition error_line (e : exn) : text := lit "Error: " ++ exn_str e.

Record outcome : Type := { stdout : text; exit_code : Z }.

(** The whole script, started on a console that already shows [console]:
    the [try] body, and the handler that prints the exception and exits
    with status 1. *)
Definition run_from (console : text) (c : child) : outcome :=
  match listing c console with
  | (inr _, out) => {| stdout := out; exit_code := 0 |}
  | (inl e, out) =>
      {| stdout := snd (print (error_line e) out); exit_code := 1 |}
  end.

Definition run (c : child) : outcome := run_from [] c.

End Script.

(** ** A reference interpreter

    An instance of [Interp] to run the script on concrete responses:
    CPython 3.11 on Linux with its defaults, standard output in UTF-8
    with strict errors, for responses in UTF-8 without finite floats.
    The decoder follows [json.loads] on bytes: the UTF-8 codec with the
    surrogatepass handler, then the JSON scanner of CPython (its string,
    number, array and object routines) with the messages of
    [JSONDecodeError]. *)

Module Reference.

Definition nat_repr (n : nat) : text := lit (NilEmpty.string_of_uint (Nat.to_uint n)).

(** *** The UTF-8 codec *)

Definition byte_repr (b : N) : text := lit "0x" ++ hex 2 b.

(** A text of characters below 256, as a message of an exception. *)
Definition message_of (t : text) : string := string_of_list_ascii (map ascii_of_N t).

(** What the codec finds wrong. *)
Inductive reason : Type :=
| InvalidStartByte
| InvalidContinuationByte
| UnexpectedEndOfData.

Definition reason_text (r : reason) : string :=
  match r with
  | InvalidStartByte => "invalid start byte"
  | InvalidContinuationByte => "invalid continuation byte"
  | UnexpectedEndOfData => "unexpected end of data"
  end.

(** [str(UnicodeDecodeError("utf-8", ., first, last + 1, reason))] *)
Definition decode_error (b : N) (first last : nat) (why : reason) : exn :=
  ValueError
    (message_of
       (lit "'utf-8' codec can't decode "
          ++ (if Nat.eqb first last
              then lit "byte " ++ byte_repr b ++ lit " in position " ++ nat_repr first
              else lit "bytes in position " ++ nat_repr first ++ lit "-" ++ nat_repr last)
          ++ lit ": " ++ lit (reason_text why))).

Definition continuation (b : N) : bool := ((128 <=? b) && (b <? 192))%N.

(** The second byte of a sequence that starts with [b1] is in range. *)
Definition second_ok (b1 b2 : N) : bool :=
  continuation b2
  && negb (((b1 =? 224) && (b2 <? 160)) || ((b1 =? 240) && (b2 <? 144))
           || ((b1 =? 244) && (144 <=? b2)))%N.

(** The bytes of a surrogate, which the surrogatepass handler lets pass. *)
Definition surrogate_bytes (b1 b2 b3 : N) : bool :=
  ((b1 =? 237) && (160 <=? b2) && (b2 <? 192) && continuation b3)%N.

Inductive decoded : Type :=
| Text (t : text)
| Undecodable (b : N) (first last : nat) (why : reason).

Definition decoded_cons (c : N) (d : decoded) : decoded :=
  match d with
  | Text t => Text (c :: t)
  | Undecodable b first last why => Undecodable b first last why
  end.

(** [bytes.decode("utf-8", "surrogatepass")], from position [pos]. *)
Fixpoint utf8_decode (fuel pos : nat) (bs : list N) : decoded :=
  match fuel with
  | O => Text []
  | S fuel' =>
      match bs with
      | [] => Text []
      | b1 :: r1 =>
          if (b1 <? 128)%N then decoded_cons b1 (utf8_decode fuel' (S pos) r1)
          else if (b1 <? 194)%N || (245 <=? b1)%N then
            Undecodable b1 pos pos InvalidStartByte
          else if (b1 <? 224)%N then
            match r1 with
            | [] => Undecodable b1 pos pos UnexpectedEndOfData
            | b2 :: r2 =>
                if continuation b2 then
                  decoded_cons ((b1 - 192) * 64 + (b2 - 128))
                               (utf8_decode fuel' (pos + 2) r2)
                else Undecodable b1 pos pos InvalidContinuationByte
            end
          else if (b1 <? 240)%N then
            match r1 with
            | [] => Undecodable b1 pos pos UnexpectedEndOfData
            | b2 :: r2 =>
                match r2 with
                | [] =>
                    if second_ok b1 b2 && negb ((b1 =? 237) && (160 <=? b2))%N then
                      Undecodable b1 pos (pos + 1) UnexpectedEndOfData
                    else Undecodable b1 pos pos InvalidContinuationByte
                | b3 :: r3 =>
                    if surrogate_bytes b1 b2 b3 then
                      decoded_cons ((b1 - 224) * 4096 + (b2 - 128) * 64 + (b3 - 128))
                                   (utf8_decode fuel' (pos + 3) r3)
                    else if negb (second_ok b1 b2) || ((b1 =? 237) && (160 <=? b2))%N then
                      Undecodable b1 pos pos InvalidContinuationByte
                    else if continuation b3 then
                      decoded_cons ((b1 - 224) * 4096 + (b2 - 128) * 64 + (b3 - 128))
                                   (utf8_decode fuel' (pos + 3) r3)
                    else Undecodable b1 pos (pos + 1) InvalidContinuationByte
                end
            end
          else
            match r1 with
            | [] => Undecodable b1 pos pos UnexpectedEndOfData
            | b2 :: r2 =>
                if negb (second_ok b1 b2) then
                  Undecodable b1 pos pos InvalidContinuationByte
                else
                  match r2 with
                  | [] => Undecodable b1 pos (pos + 1) UnexpectedEndOfData
                  | b3 :: r3 =>
                      if negb (continuation b3) then
                        Undecodable b1 pos (pos + 1) InvalidContinuationByte
                      else
                        match r3 with
                        | [] =>
                            Undecodable b1 pos (pos + 2) UnexpectedEndOfData
                        | b4 :: r4 =>
                            if continuation b4 then
                              decoded_cons ((b1 - 240) * 262144 + (b2 - 128) * 4096
                                            + (b3 - 128) * 64 + (b4 - 128))
                                           (utf8_decode fuel' (pos + 4) r4)
                            else
                              Undecodable b1 pos (pos + 2) InvalidContinuationByte
                        end
                  end
            end
      end
  end.

(** [json.detect_encoding]: UTF-8, with or without its byte order mark;
    [None] for UTF-16 and UTF-32, which the instance leaves out. *)
Definition utf8_body (bs : list N) : option (list N) :=
  match bs with
  | 0 :: 0 :: 254 :: 255 :: _ | 255 :: 254 :: 0 :: 0 :: _ => None
  | 254 :: 255 :: _ | 255 :: 254 :: _ => None
  | 239 :: 187 :: 191 :: rest => Some rest
  | [0; _] | [_; 0] => None
  | 0 :: _ :: _ :: _ :: _ | _ :: 0 :: _ :: _ :: _ => None
  | _ => Some bs
  end%N.

(** *** The JSON scanner *)

Definition is_ws (c : N) : bool := ((c =? 32) || (c =? 9) || (c =? 10) || (c =? 13))%N.

Definition is_digit (c : N) : bool := ((48 <=? c) && (c <=? 57))%N.

Fixpoint skip_ws (s : text) : text :=
  match s with
  | c :: s' => if is_ws c then skip_ws s' else s
  | [] => s
  end.

Definition next_is (c : string) (s : text) : bool :=
  match s, lit c with
  | d :: _, [c'] => N.eqb c' d
  | _, _ => false
  end.

(** The messages of [JSONDecodeError]. *)
Inductive message : Type :=
| ExpectingValue
| ExtraData
| UnterminatedString
| InvalidEscape
| InvalidUnicodeEscape
| InvalidControlCharacter
| ExpectingPropertyName
| ExpectingColon
| ExpectingComma.

Definition message_text (m : message) : string :=
  match m with
  | ExpectingValue => "Expecting value"
  | ExtraData => "Extra data"
  | UnterminatedString => "Unterminated string starting at"
  | InvalidEscape => "Invalid \escape"
  | InvalidUnicodeEscape => "Invalid \uXXXX escape"
  | InvalidControlCharacter => "Invalid control character at"
  | ExpectingPropertyName => "Expecting property name enclosed in double quotes"
  | ExpectingColon => "Expecting ':' delimiter"
  | ExpectingComma => "Expecting ',' delimiter"
  end.

(** The limits of the interpreter a document can meet: the digits of an
    int, and the depth of the recursion, in an object or in an array. *)
Inductive limit : Type :=
| IntDigits (n : nat)
| DepthInObject
| DepthInArray.

(** A scan: the value and the text after it, a [JSONDecodeError] with the
    text from its position on, a limit of the interpreter met, or a
    document the instance leaves out. *)
Inductive scanned (A : Type) : Type :=
| Got (a : A) (rest : text)
| Bad (msg : message) (rest : text)
| Raised (l : limit)
| Beyond.

Arguments Got {A} a rest.
Arguments Bad {A} msg rest.
Arguments Raised {A} l.
Arguments Beyond {A}.

Definition scanned_map {A B} (f : A -> B) (r : scanned A) : scanned B :=
  match r with
  | Got a rest => Got (f a) rest
  | Bad msg rest => Bad msg rest
  | Raised l => Raised l
  | Beyond => Beyond
  end.

Definition unescape (c : N) : option N :=
  if (c =? 34)%N then Some 34%N
  else if (c =? 92)%N then Some 92%N
  else if (c =? 47)%N then Some 47%N
  else if (c =? 98)%N then Some 8%N
  else if (c =? 102)%N then Some 12%N
  else if (c =? 110)%N then Some 10%N
  else if (c =? 114)%N then Some 13%N
  else if (c =? 116)%N then Some 9%N
  else None.

Definition hex_value (c : N) : option N :=
  if is_digit c then Some (c - 48)%N
  else if ((97 <=? c) && (c <=? 102))%N then Some (c - 87)%N
  else if ((65 <=? c) && (c <=? 70))%N then Some (c - 55)%N
  else None.

(** Four hexadecimal digits at the head of [s]: their value and the text
    after them. *)
Definition hex4 (s : text) : option (N * text) :=
  match s with
  | a :: b :: c :: d :: rest =>
      match hex_value a, hex_value b, hex_value c, hex_value d with
      | Some x, Some y, Some z, Some w => Some (((x * 16 + y) * 16 + z) * 16 + w, rest)%N
      | _, _, _, _ => None
      end
  | _ => None
  end.

Definition high_surrogate (c : N) : bool := ((55296 <=? c) && (c <=? 56319))%N.
Definition low_surrogate (c : N) : bool := ((56320 <=? c) && (c <=? 57343))%N.

(** The text of a string literal; [s] starts after the opening quote, at
    which [opening] starts. *)
Fixpoint scan_string (fuel : nat) (opening s : text) : scanned text :=
  match fuel with
  | O => Beyond
  | S fuel' =>
      match s with
      | [] => Bad UnterminatedString opening
      | c :: s' =>
          if (c =? 34)%N then Got [] s'
          else if (c =? 92)%N then
            match s' with
            | [] => Bad UnterminatedString opening
            | e :: s'' =>
                if (e =? 117)%N then
                  match hex4 s'' with
                  | None => Bad InvalidUnicodeEscape s'
                  | Some (u, rest) =>
                      if high_surrogate u && (6 <=? length rest)%nat
                         && starts_with (lit "\u") rest then
                        match hex4 (skipn 2 rest) with
                        | None => Bad InvalidUnicodeEscape (skipn 1 rest)
                        | Some (u2, rest2) =>
                            if low_surrogate u2 then
                              scanned_map
                                (cons (65536 + (u - 55296) * 1024 + (u2 - 56320))%N)
                                (scan_string fuel' opening rest2)
                            else scanned_map (cons u) (scan_string fuel' opening rest)
                        end
                      else scanned_map (cons u) (scan_string fuel' opening rest)
                  end
                else match unescape e with
                     | Some d => scanned_map (cons d) (scan_string fuel' opening s'')
                     | None => Bad InvalidEscape s
                     end
            end
          else if (c <=? 31)%N then Bad InvalidControlCharacter s
          else scanned_map (cons c) (scan_string fuel' opening s')
      end
  end.

Fixpoint span_digits (s : text) : text * text :=
  match s with
  | c :: s' =>
      if is_digit c then let (ds, rest) := span_digits s' in (c :: ds, rest)
      else ([], s)
  | [] => ([], s)
  end.

Fixpoint digits_value (acc : Z) (ds : text) : Z :=
  match ds with
  | c :: ds' => digits_value (10 * acc + Z.of_N (c - 48)) ds'
  | [] => acc
  end.

(** After the integer part: a fraction or an exponent makes a float. *)
Definition float_tail (s : text) : bool :=
  match s with
  | c :: s' =>
      if (c =? 46)%N then
        match s' with
        | d :: _ => is_digit d
        | [] => false
        end
      else if ((c =? 101) || (c =? 69))%N then
        match s' with
        | d :: s'' =>
            if ((d =? 43) || (d =? 45))%N then
              match s'' with
              | d' :: _ => is_digit d'
              | [] => false
              end
            else is_digit d
        | [] => false
        end
      else false
  | [] => false
  end.

(** [sys.get_int_max_str_digits()] *)
Definition max_int_digits : nat := 4300.

Definition scan_number {F} (s : text) : scanned (pyval F) :=
  let negative := next_is "-" s in
  let s1 := if negative then skipn 1 s else s in
  match s1 with
  | c :: s2 =>
      let (ds, rest) :=
        if (c =? 48)%N then ([c], s2)
        else span_digits s1 in
      match ds with
      | [] => Bad ExpectingValue s
      | _ :: _ =>
          if float_tail rest then Beyond
          else if (max_int_digits <? length ds)%nat then Raised (IntDigits (length ds))
          else let n := digits_value 0 ds in
               Got (PInt (if negative then (- n)%Z else n)) rest
      end
  | [] => Bad ExpectingValue s
  end.

(** [d[key] = w]: a key already there keeps its place. *)
Fixpoint dict_set {A} (key : text) (w : A) (items : list (text * A)) : list (text * A) :=
  match items with
  | [] => [(key, w)]
  | (k, v) :: rest =>
      if text_eqb k key then (k, w) :: rest else (k, v) :: dict_set key w rest
  end.

(** The floats the instance has: the three [json.loads] reads from
    [NaN], [Infinity] and [-Infinity]. *)
Inductive special : Type :=
| Nan
| Inf (negative : bool).

Definition special_repr (x : special) : text :=
  match x with
  | Nan => lit "nan"
  | Inf false => lit "inf"
  | Inf true => lit "-inf"
  end.

(** The containers [json.loads] can nest before the interpreter's
    recursion limit stops it, called as the script calls it. *)
Definition max_depth : nat := 995.

Fixpoint scan_once (fuel depth : nat) (s : text) : scanned (pyval special) :=
  match fuel with
  | O => Beyond
  | S fuel' =>
      match s with
      | [] => Bad ExpectingValue s
      | c :: s' =>
          if (c =? 34)%N then scanned_map PStr (scan_string (length s) s s')
          else if (c =? 123)%N then
            match depth with
            | O => Raised DepthInObject
            | S depth' =>
                let s1 := skip_ws s' in
                if next_is "}" s1 then Got (PDict []) (skipn 1 s1)
                else scan_members fuel' depth' [] s1
            end
          else if (c =? 91)%N then
            match depth with
            | O => Raised DepthInArray
            | S depth' =>
                let s1 := skip_ws s' in
                if next_is "]" s1 then Got (PList []) (skipn 1 s1)
                else scan_elems fuel' depth' [] s1
            end
          else if starts_with (lit "null") s then Got PNone (skipn 4 s)
          else if starts_with (lit "true") s then Got (PBool true) (skipn 4 s)
          else if starts_with (lit "false") s then Got (PBool false) (skipn 5 s)
          else if starts_with (lit "NaN") s then Got (PFloat Nan) (skipn 3 s)
          else if starts_with (lit "Infinity") s then Got (PFloat (Inf false)) (skipn 8 s)
          else if starts_with (lit "-Infinity") s then Got (PFloat (Inf true)) (skipn 9 s)
          else scan_number s
      end
  end

with scan_elems (fuel depth : nat) (acc : list (pyval special)) (s : text)
  : scanned (pyval special) :=
  match fuel with
  | O => Beyond
  | S fuel' =>
      match scan_once fuel' depth s with
      | Got v rest =>
          let r := skip_ws rest in
          if next_is "]" r then Got (PList (rev (v :: acc))) (skipn 1 r)
          else if next_is "," r then scan_elems fuel' depth (v :: acc) (skip_ws (skipn 1 r))
          else Bad ExpectingComma r
      | Bad msg rest => Bad msg rest
      | Raised l => Raised l
      | Beyond => Beyond
      end
  end

with scan_members (fuel depth : nat) (acc : list (text * pyval special)) (s : text)
  : scanned (pyval special) :=
  match fuel with
  | O => Beyond
  | S fuel' =>
      if negb (starts_with [dquote] s) then Bad ExpectingPropertyName s
      else
        match scan_string (length s) s (skipn 1 s) with
        | Got key rest =>
            let r := skip_ws rest in
            if negb (next_is ":" r) then Bad ExpectingColon r
            else
              match scan_once fuel' depth (skip_ws (skipn 1 r)) with
              | Got v rest' =>
                  let acc' := dict_set key v acc in
                  let r' := skip_ws rest' in
                  if next_is "}" r' then Got (PDict acc') (skipn 1 r')
                  else if next_is "," r' then
                    scan_members fuel' depth acc' (skip_ws (skipn 1 r'))
                  else Bad ExpectingComma r'
              | Bad msg rest' => Bad msg rest'
              | Raised l => Raised l
              | Beyond => Beyond
              end
        | Bad msg rest => Bad msg rest
        | Raised l => Raised l
        | Beyond => Beyond
        end
  end.

Fixpoint count_char (c : N) (s : text) : nat :=
  match s with
  | [] => 0
  | d :: s' => (if N.eqb c d then 1 else 0) + count_char c s'
  end.

(** The characters after the last line feed of [s]. *)
Fixpoint last_line (s : text) : text :=
  match s with
  | [] => []
  | c :: s' => if mem_char LF s' then last_line s'
               else if N.eqb c LF then s' else s
  end.

(** The exception of a limit: a ValueError for the digits of an int, a
    RecursionError for the depth. *)
Definition limit_error (l : limit) : exn :=
  match l with
  | IntDigits n =>
      ValueError
        (message_of
           (lit "Exceeds the limit (4300 digits) for integer string conversion: value has "
              ++ nat_repr n
              ++ lit " digits; use sys.set_int_max_str_digits() to increase the limit"))
  | DepthInObject =>
      RecursionError
        "maximum recursion depth exceeded while decoding a JSON object from a unicode string"
  | DepthInArray =>
      RecursionError
        "maximum recursion depth exceeded while decoding a JSON array from a unicode string"
  end.

(** [JSONDecodeError(msg, doc, pos)], with [rest] what [doc] has from
    [pos] on. *)
Definition json_error (doc : text) (msg : message) (rest : text) : exn :=
  let pos := length doc - length rest in
  let before := firstn pos doc in
  ValueError
    (message_of
       (lit (message_text msg) ++ lit ": line " ++ nat_repr (count_char LF before + 1)
          ++ lit " column " ++ nat_repr (length (last_line before) + 1)
          ++ lit " (char " ++ nat_repr pos ++ lit ")")).

Definition bytes_of (s : string) : list N := map N_of_ascii (list_ascii_of_string s).

(** [json.loads] on the bytes of a response, [None] for what the instance
    leaves out: UTF-16, UTF-32 and finite floats. *)
Definition decode (body : string) : option (exc (pyval special)) :=
  match utf8_body (bytes_of body) with
  | None => None
  | Some bs =>
      match utf8_decode (S (length bs)) 0 bs with
      | Undecodable b first last why => Some (inl (decode_error b first last why))
      | Text doc =>
          match scan_once (2 * length doc + 2) max_depth (skip_ws doc) with
          | Got v rest =>
              match skip_ws rest with
              | [] => Some (inr v)
              | (_ :: _) as r => Some (inl (json_error doc ExtraData r))
              end
          | Bad msg rest => Some (inl (json_error doc msg rest))
          | Raised l => Some (inl (limit_error l))
          | Beyond => None
          end
      end
  end.

(** *** Printable characters

    The ranges of code points [str.isprintable] accepts, from the Unicode
    14.0.0 data of CPython 3.11. *)
Definition printable_ranges : list (N * N) :=
  [(32, 126); (161, 172); (174, 887); (890, 895); (900, 906); (908, 908); (910, 929);
   (931, 1327); (1329, 1366); (1369, 1418); (1421, 1423); (1425, 1479); (1488, 1514);
   (1519, 1524); (1542, 1563); (1565, 1756); (1758, 1805); (1808, 1866); (1869, 1969);
   (1984, 2042); (2045, 2093); (2096, 2110); (2112, 2139); (2142, 2142); (2144, 2154);
   (2160, 2190); (2200, 2273); (2275, 2435); (2437, 2444); (2447, 2448); (2451, 2472);
   (2474, 2480); (2482, 2482); (2486, 2489); (2492, 2500); (2503, 2504); (2507, 2510);
   (2519, 2519); (2524, 2525); (2527, 2531); (2534, 2558); (2561, 2563); (2565, 2570);
   (2575, 2576); (2579, 2600); (2602, 2608); (2610, 2611); (2613, 2614); (2616, 2617);
   (2620, 2620); (2622, 2626); (2631, 2632); (2635, 2637); (2641, 2641); (2649, 2652);
   (2654, 2654); (2662, 2678); (2689, 2691); (2693, 2701); (2703, 2705); (2707, 2728);
   (2730, 2736); (2738, 2739); (2741, 2745); (2748, 2757); (2759, 2761); (2763, 2765);
   (2768, 2768); (2784, 2787); (2790, 2801); (2809, 2815); (2817, 2819); (2821, 2828);
   (2831, 2832); (2835, 2856); (2858, 2864); (2866, 2867); (2869, 2873); (2876, 2884);
   (2887, 2888); (2891, 2893); (2901, 2903); (2908, 2909); (2911, 2915); (2918, 2935);
   (2946, 2947); (2949, 2954); (2958, 2960); (2962, 2965); (2969, 2970); (2972, 2972);
   (2974, 2975); (2979, 2980); (2984, 2986); (2990, 3001); (3006, 3010); (3014, 3016);
   (3018, 3021); (3024, 3024); (3031, 3031); (3046, 3066); (3072, 3084); (3086, 3088);
   (3090, 3112); (3114, 3129); (3132, 3140); (3142, 3144); (3146, 3149); (3157, 3158);
   (3160, 3162); (3165, 3165); (3168, 3171); (3174, 3183); (3191, 3212); (3214, 3216);
   (3218, 3240); (3242, 3251); (3253, 3257); (3260, 3268); (3270, 3272); (3274, 3277);
   (3285, 3286); (3293, 3294); (3296, 3299); (3302, 3311); (3313, 3314); (3328, 3340);
   (3342, 3344); (3346, 3396); (3398, 3400); (3402, 3407); (3412, 3427); (3430, 3455);
   (3457, 3459); (3461, 3478); (3482, 3505); (3507, 3515); (3517, 3517); (3520, 3526);
   (3530, 3530); (3535, 3540); (3542, 3542); (3544, 3551); (3558, 3567); (3570, 3572);
   (3585, 3642); (3647, 3675); (3713, 3714); (3716, 3716); (3718, 3722); (3724, 3747);
   (3749, 3749); (3751, 3773); (3776, 3780); (3782, 3782); (3784, 3789); (3792, 3801);
   (3804, 3807); (3840, 3911); (3913, 3948); (3953, 3991); (3993, 4028); (4030, 4044);
   (4046, 4058); (4096, 4293); (4295, 4295); (4301, 4301); (4304, 4680); (4682, 4685);
   (4688, 4694); (4696, 4696); (4698, 4701); (4704, 4744); (4746, 4749); (4752, 4784);
   (4786, 4789); (4792, 4798); (4800, 4800); (4802, 4805); (4808, 4822); (4824, 4880);
   (4882, 4885); (4888, 4954); (4957, 4988); (4992, 5017); (5024, 5109); (5112, 5117);
   (5120, 5759); (5761, 5788); (5792, 5880); (5888, 5909); (5919, 5942); (5952, 5971);
   (5984, 5996); (5998, 6000); (6002, 6003); (6016, 6109); (6112, 6121); (6128, 6137);
   (6144, 6157); (6159, 6169); (6176, 6264); (6272, 6314); (6320, 6389); (6400, 6430);
   (6432, 6443); (6448, 6459); (6464, 6464); (6468, 6509); (6512, 6516); (6528, 6571);
   (6576, 6601); (6608, 6618); (6622, 6683); (6686, 6750); (6752, 6780); (6783, 6793);
   (6800, 6809); (6816, 6829); (6832, 6862); (6912, 6988); (6992, 7038); (7040, 7155);
   (7164, 7223); (7227, 7241); (7245, 7304); (7312, 7354); (7357, 7367); (7376, 7418);
   (7424, 7957); (7960, 7965); (7968, 8005); (8008, 8013); (8016, 8023); (8025, 8025);
   (8027, 8027); (8029, 8029); (8031, 8061); (8064, 8116); (8118, 8132); (8134, 8147);
   (8150, 8155); (8157, 8175); (8178, 8180); (8182, 8190); (8208, 8231); (8240, 8286);
   (8304, 8305); (8308, 8334); (8336, 8348); (8352, 8384); (8400, 8432); (8448, 8587);
   (8592, 9254); (9280, 9290); (9312, 11123); (11126, 11157); (11159, 11507);
   (11513, 11557); (11559, 11559); (11565, 11565); (11568, 11623); (11631, 11632);
   (11647, 11670); (11680, 11686); (11688, 11694); (11696, 11702); (11704, 11710);
   (11712, 11718); (11720, 11726); (11728, 11734); (11736, 11742); (11744, 11869);
   (11904, 11929); (11931, 12019); (12032, 12245); (12272, 12283); (12289, 12351);
   (12353, 12438); (12441, 12543); (12549, 12591); (12593, 12686); (12688, 12771);
   (12784, 12830); (12832, 42124); (42128, 42182); (42192, 42539); (42560, 42743);
   (42752, 42954); (42960, 42961); (42963, 42963); (42965, 42969); (42994, 43052);
   (43056, 43065); (43072, 43127); (43136, 43205); (43214, 43225); (43232, 43347);
   (43359, 43388); (43392, 43469); (43471, 43481); (43486, 43518); (43520, 43574);
   (43584, 43597); (43600, 43609); (43612, 43714); (43739, 43766); (43777, 43782);
   (43785, 43790); (43793, 43798); (43808, 43814); (43816, 43822); (43824, 43883);
   (43888, 44013); (44016, 44025); (44032, 55203); (55216, 55238); (55243, 55291);
   (63744, 64109); (64112, 64217); (64256, 64262); (64275, 64279); (64285, 64310);
   (64312, 64316); (64318, 64318); (64320, 64321); (64323, 64324); (64326, 64450);
   (64467, 64911); (64914, 64967); (64975, 64975); (65008, 65049); (65056, 65106);
   (65108, 65126); (65128, 65131); (65136, 65140); (65142, 65276); (65281, 65470);
   (65474, 65479); (65482, 65487); (65490, 65495); (65498, 65500); (65504, 65510);
   (65512, 65518); (65532, 65533); (65536, 65547); (65549, 65574); (65576, 65594);
   (65596, 65597); (65599, 65613); (65616, 65629); (65664, 65786); (65792, 65794);
   (65799, 65843); (65847, 65934); (65936, 65948); (65952, 65952); (66000, 66045);
   (66176, 66204); (66208, 66256); (66272, 66299); (66304, 66339); (66349, 66378);
   (66384, 66426); (66432, 66461); (66463, 66499); (66504, 66517); (66560, 66717);
   (66720, 66729); (66736, 66771); (66776, 66811); (66816, 66855); (66864, 66915);
   (66927, 66938); (66940, 66954); (66956, 66962); (66964, 66965); (66967, 66977);
   (66979, 66993); (66995, 67001); (67003, 67004); (67072, 67382); (67392, 67413);
   (67424, 67431); (67456, 67461); (67463, 67504); (67506, 67514); (67584, 67589);
   (67592, 67592); (67594, 67637); (67639, 67640); (67644, 67644); (67647, 67669);
   (67671, 67742); (67751, 67759); (67808, 67826); (67828, 67829); (67835, 67867);
   (67871, 67897); (67903, 67903); (67968, 68023); (68028, 68047); (68050, 68099);
   (68101, 68102); (68108, 68115); (68117, 68119); (68121, 68149); (68152, 68154);
   (68159, 68168); (68176, 68184); (68192, 68255); (68288, 68326); (68331, 68342);
   (68352, 68405); (68409, 68437); (68440, 68466); (68472, 68497); (68505, 68508);
   (68521, 68527); (68608, 68680); (68736, 68786); (68800, 68850); (68858, 68903);
   (68912, 68921); (69216, 69246); (69248, 69289); (69291, 69293); (69296, 69297);
   (69376, 69415); (69424, 69465); (69488, 69513); (69552, 69579); (69600, 69622);
   (69632, 69709); (69714, 69749); (69759, 69820); (69822, 69826); (69840, 69864);
   (69872, 69881); (69888, 69940); (69942, 69959); (69968, 70006); (70016, 70111);
   (70113, 70132); (70144, 70161); (70163, 70206); (70272, 70278); (70280, 70280);
   (70282, 70285); (70287, 70301); (70303, 70313); (70320, 70378); (70384, 70393);
   (70400, 70403); (70405, 70412); (70415, 70416); (70419, 70440); (70442, 70448);
   (70450, 70451); (70453, 70457); (70459, 70468); (70471, 70472); (70475, 70477);
   (70480, 70480); (70487, 70487); (70493, 70499); (70502, 70508); (70512, 70516);
   (70656, 70747); (70749, 70753); (70784, 70855); (70864, 70873); (71040, 71093);
   (71096, 71133); (71168, 71236); (71248, 71257); (71264, 71276); (71296, 71353);
   (71360, 71369); (71424, 71450); (71453, 71467); (71472, 71494); (71680, 71739);
   (71840, 71922); (71935, 71942); (71945, 71945); (71948, 71955); (71957, 71958);
   (71960, 71989); (71991, 71992); (71995, 72006); (72016, 72025); (72096, 72103);
   (72106, 72151); (72154, 72164); (72192, 72263); (72272, 72354); (72368, 72440);
   (72704, 72712); (72714, 72758); (72760, 72773); (72784, 72812); (72816, 72847);
   (72850, 72871); (72873, 72886); (72960, 72966); (72968, 72969); (72971, 73014);
   (73018, 73018); (73020, 73021); (73023, 73031); (73040, 73049); (73056, 73061);
   (73063, 73064); (73066, 73102); (73104, 73105); (73107, 73112); (73120, 73129);
   (73440, 73464); (73648, 73648); (73664, 73713); (73727, 74649); (74752, 74862);
   (74864, 74868); (74880, 75075); (77712, 77810); (77824, 78894); (82944, 83526);
   (92160, 92728); (92736, 92766); (92768, 92777); (92782, 92862); (92864, 92873);
   (92880, 92909); (92912, 92917); (92928, 92997); (93008, 93017); (93019, 93025);
   (93027, 93047); (93053, 93071); (93760, 93850); (93952, 94026); (94031, 94087);
   (94095, 94111); (94176, 94180); (94192, 94193); (94208, 100343); (100352, 101589);
   (101632, 101640); (110576, 110579); (110581, 110587); (110589, 110590);
   (110592, 110882); (110928, 110930); (110948, 110951); (110960, 111355);
   (113664, 113770); (113776, 113788); (113792, 113800); (113808, 113817);
   (113820, 113823); (118528, 118573); (118576, 118598); (118608, 118723);
   (118784, 119029); (119040, 119078); (119081, 119154); (119163, 119274);
   (119296, 119365); (119520, 119539); (119552, 119638); (119648, 119672);
   (119808, 119892); (119894, 119964); (119966, 119967); (119970, 119970);
   (119973, 119974); (119977, 119980); (119982, 119993); (119995, 119995);
   (119997, 120003); (120005, 120069); (120071, 120074); (120077, 120084);
   (120086, 120092); (120094, 120121); (120123, 120126); (120128, 120132);
   (120134, 120134); (120138, 120144); (120146, 120485); (120488, 120779);
   (120782, 121483); (121499, 121503); (121505, 121519); (122624, 122654);
   (122880, 122886); (122888, 122904); (122907, 122913); (122915, 122916);
   (122918, 122922); (123136, 123180); (123184, 123197); (123200, 123209);
   (123214, 123215); (123536, 123566); (123584, 123641); (123647, 123647);
   (124896, 124902); (124904, 124907); (124909, 124910); (124912, 124926);
   (124928, 125124); (125127, 125142); (125184, 125259); (125264, 125273);
   (125278, 125279); (126065, 126132); (126209, 126269); (126464, 126467);
   (126469, 126495); (126497, 126498); (126500, 126500); (126503, 126503);
   (126505, 126514); (126516, 126519); (126521, 126521); (126523, 126523);
   (126530, 126530); (126535, 126535); (126537, 126537); (126539, 126539);
   (126541, 126543); (126545, 126546); (126548, 126548); (126551, 126551);
   (126553, 126553); (126555, 126555); (126557, 126557); (126559, 126559);
   (126561, 126562); (126564, 126564); (126567, 126570); (126572, 126578);
   (126580, 126583); (126585, 126588); (126590, 126590); (126592, 126601);
   (126603, 126619); (126625, 126627); (126629, 126633); (126635, 126651);
   (126704, 126705); (126976, 127019); (127024, 127123); (127136, 127150);
   (127153, 127167); (127169, 127183); (127185, 127221); (127232, 127405);
   (127462, 127490); (127504, 127547); (127552, 127560); (127568, 127569);
   (127584, 127589); (127744, 128727); (128733, 128748); (128752, 128764);
   (128768, 128883); (128896, 128984); (128992, 129003); (129008, 129008);
   (129024, 129035); (129040, 129095); (129104, 129113); (129120, 129159);
   (129168, 129197); (129200, 129201); (129280, 129619); (129632, 129645);
   (129648, 129652); (129656, 129660); (129664, 129670); (129680, 129708);
   (129712, 129722); (129728, 129733); (129744, 129753); (129760, 129767);
   (129776, 129782); (129792, 129938); (129940, 129994); (130032, 130041);
   (131072, 173791); (173824, 177976); (177984, 178205); (178208, 183969);
   (183984, 191456); (194560, 195101); (196608, 201546); (917760, 917999)]%N.

Definition in_ranges (c : N) (ranges : list (N * N)) : bool :=
  existsb (fun r => (fst r <=? c)%N && (c <=? snd r)%N) ranges.

Definition printable (c : N) : bool := in_ranges c printable_ranges.

(** *** Standard output and the text of exceptions *)

Definition surrogate (c : N) : bool := ((55296 <=? c) && (c <=? 57343))%N.

(** UTF-8 with strict errors has every character but the surrogates. *)
Definition utf8_char (c : N) : bool := negb (surrogate c).

Fixpoint take_while {A} (p : A -> bool) (l : list A) : list A :=
  match l with
  | x :: rest => if p x then x :: take_while p rest else []
  | [] => []
  end.

Fixpoint drop_while {A} (p : A -> bool) (l : list A) : list A :=
  match l with
  | x :: rest => if p x then drop_while p rest else l
  | [] => []
  end.

Definition char_escape (c : N) : text :=
  if (c <? 256)%N then lit "\x" ++ hex 2 c
  else if (c <? 65536)%N then lit "\u" ++ hex 4 c
  else lit "\U" ++ hex 8 c.

(** [str(e)] for the UnicodeEncodeError of the UTF-8 codec on [t]. *)
Definition encode_error_text (t : text) : text :=
  let good := take_while utf8_char t in
  let bad := take_while surrogate (drop_while utf8_char t) in
  let first := length good in
  lit "'utf-8' codec can't encode "
    ++ match bad with
       | [c] => lit "character '" ++ char_escape c ++ lit "' in position " ++ nat_repr first
       | _ => lit "characters in position " ++ nat_repr first ++ lit "-"
                ++ nat_repr (first + length bad - 1)
       end
    ++ lit ": surrogates not allowed".

Definition type_name (t : pytype) : string :=
  match t with
  | TNoneType => "NoneType"
  | TBool => "bool"
  | TInt => "int"
  | TFloat => "float"
  | TStr => "str"
  | TList => "list"
  | TDict => "dict"
  end.

Definition signal_names : list string :=
  ["SIGHUP"; "SIGINT"; "SIGQUIT"; "SIGILL"; "SIGTRAP"; "SIGABRT"; "SIGBUS";
   "SIGFPE"; "SIGKILL"; "SIGUSR1"; "SIGSEGV"; "SIGUSR2"; "SIGPIPE"; "SIGALRM";
   "SIGTERM"; "SIGSTKFLT"; "SIGCHLD"; "SIGCONT"; "SIGSTOP"; "SIGTSTP";
   "SIGTTIN"; "SIGTTOU"; "SIGURG"; "SIGXCPU"; "SIGXFSZ"; "SIGVTALRM";
   "SIGPROF"; "SIGWINCH"; "SIGIO"; "SIGPWR"; "SIGSYS"]%string.

Definition signal_name (n : Z) : option string :=
  if (n =? 34)%Z then Some "SIGRTMIN"%string
  else if (n =? 64)%Z then Some "SIGRTMAX"%string
  else if (1 <=? n)%Z then nth_error signal_names (Z.to_nat (n - 1))
  else None.

Definition exn_text (e : exn) : text :=
  match e with
  | OSError msg | ValueError msg | RecursionError msg => lit msg
  | CalledProcessError rc cmd _ =>
      let shown :=
        lit "Command '"
          ++ py_repr printable special_repr (PList (map (fun c => PStr (lit c)) cmd))
          ++ lit "' " in
      if (rc <? 0)%Z then
        match signal_name (- rc) with
        | Some name =>
            shown ++ lit "died with <Signals." ++ lit name ++ lit ": "
                  ++ int_repr (- rc) ++ lit ">."
        | None => shown ++ lit "died with unknown signal " ++ int_repr (- rc) ++ lit "."
        end
      else shown ++ lit "returned non-zero exit status " ++ int_repr rc ++ lit "."
  | TypeError (NotIterable t) => lit "'" ++ lit (type_name t) ++ lit "' object is not iterable"
  | TypeError (NotSubscriptable t) =>
      lit "'" ++ lit (type_name t) ++ lit "' object is not subscriptable"
  | TypeError (IndexNotInteger TStr) => lit "string indices must be integers, not 'str'"
  | TypeError (IndexNotInteger t) =>
      lit (type_name t) ++ lit " indices must be integers or slices, not str"
  | KeyError key => str_repr printable (lit key)
  | UnicodeEncodeError t => encode_error_text t
  end.

(** [json.loads] of the reference interpreter.  For what the instance
    leaves out it answers with a [ValueError] of its own; no statement
    below runs it there. *)
Definition loads (body : string) : exc (pyval special) :=
  match decode body with
  | Some r => r
  | None => inl (ValueError "response beyond the reference instance")
  end.

(** JSON text written with single quotes for the double ones. *)
Fixpoint json (s : string) : string :=
  match s with
  | EmptyString => EmptyString
  | String c s' =>
      String (if N.eqb (N_of_ascii c) squote then ascii_of_N dquote else c) (json s')
  end.

Fixpoint nines (n : nat) : string :=
  match n with
  | O => EmptyString
  | S n' => String "9" (nines n')
  end.

(** An element with [id] and [name]. *)
Definition zone (id_ name : pyval special) : pyval special :=
  PDict [(lit "id", id_); (lit "name", name)].

(** Responses used below. *)
Definition two_zones : string :=
  json "[{'id': 1, 'name': 'Zone A'}, {'id': 2, 'name': 'Zone B'}]".
Definition zone_a : string := json "[{'id': 1, 'name': 'Zone A'}]".
Definition zone_dubai : string := json "[{'id': 7, 'name': 'دبي'}]".
Definition name_of_two_lines : string := json "[{'id': 1, 'name': 'a\nb'}]".
Definition name_missing : string := json "[{'id': 1, 'name': 'A'}, {'id': 2}]".
Definition surrogate_before_name_missing : string :=
  json "[{'id': 1, 'name': '\ud800'}, {'id': 2}]".
Definition extra_fields : string :=
  json "[{'country': 'AE', 'id': 'dmcc', 'name': 'DMCC', 'open': true}]".
Definition error_page : string := "<html><body>502 Bad Gateway</body></html>".
Definition not_a_number : string := "NaN".
Definition zone_of_specials : string := json "[{'id': NaN, 'name': Infinity}]".
Definition empty_object : string := "{}".
Definition empty_string : string := json "''".
Definition a_number : string := "42".
Definition long_number : string := nines 4301.
Definition keys_missing : string :=
  json "[{'id': 1, 'name': 'A'}, {'label': 'B'}, {'id': 3}]".
Definition values_of_all_types : string :=
  json "[{'id': null, 'name': ['a\nb', true]}, {'id': {'k': -7}, 'name': -Infinity}]".

End Reference.

(** ** Valid JSON

    The grammar of RFC 8259, to state what the specification calls a
    response that is, or is not, valid JSON: a recognizer of JSON texts
    in UTF-8, independent of [json.loads]. *)

Module Rfc8259.

Definition ws (c : N) : bool := ((c =? 32) || (c =? 9) || (c =? 10) || (c =? 13))%N.

Fixpoint skip_ws (s : text) : text :=
  match s with
  | c :: r => if ws c then skip_ws r else s
  | [] => []
  end.

Definition digit (c : N) : bool := ((48 <=? c) && (c <=? 57))%N.

Definition hexdig (c : N) : bool :=
  (digit c || ((65 <=? c) && (c <=? 70)) || ((97 <=? c) && (c <=? 102)))%N.

(** [char*] and the closing quotation mark; the text after it. *)
Fixpoint chars (s : text) : option text :=
  match s with
  | [] => None
  | 34 :: r => Some r
  | 92 :: e :: r =>
      if mem_char e (lit "bfnrt/\") || N.eqb e dquote then chars r
      else if N.eqb e 117 then
        match r with
        | h1 :: h2 :: h3 :: h4 :: r' =>
            if hexdig h1 && hexdig h2 && hexdig h3 && hexdig h4 then chars r' else None
        | _ => None
        end
      else None
  | [92] => None
  | c :: r => if (c <? 32)%N then None else chars r
  end%N.

Fixpoint skip_digits (s : text) : text :=
  match s with
  | c :: r => if digit c then skip_digits r else s
  | [] => []
  end.

(** [1*DIGIT] *)
Definition digits (s : text) : option text :=
  match s with
  | c :: r => if digit c then Some (skip_digits r) else None
  | [] => None
  end.

(** [int = zero / ( digit1-9 *DIGIT )] *)
Definition int (s : text) : option text :=
  match s with
  | 48 :: r => Some r
  | _ => digits s
  end%N.

(** [frac = decimal-point 1*DIGIT], optional *)
Definition frac (s : text) : option text :=
  match s with
  | 46 :: r => digits r
  | _ => Some s
  end%N.

(** [exp = e [ minus / plus ] 1*DIGIT], optional *)
Definition exp (s : text) : option text :=
  match s with
  | 101 :: r | 69 :: r =>
      match r with
      | 43 :: r' | 45 :: r' => digits r'
      | _ => digits r
      end
  | _ => Some s
  end%N.

(** [number = [ minus ] int [ frac ] [ exp ]] *)
Definition number (s : text) : option text :=
  let s1 := match s with 45 :: r => r | _ => s end%N in
  match int s1 with
  | Some r1 => match frac r1 with
               | Some r2 => exp r2
               | None => None
               end
  | None => None
  end.

(** A value at the head of [s], and the text after it. *)
Fixpoint value (fuel : nat) (s : text) : option text :=
  match fuel with
  | O => None
  | S fuel' =>
      match s with
      | 34 :: r => chars r
      | 91 :: r =>
          match skip_ws r with
          | 93 :: r' => Some r'
          | r' => elements fuel' r'
          end
      | 123 :: r =>
          match skip_ws r with
          | 125 :: r' => Some r'
          | r' => members fuel' r'
          end
      | _ =>
          if starts_with (lit "null") s then Some (skipn 4 s)
          else if starts_with (lit "true") s then Some (skipn 4 s)
          else if starts_with (lit "false") s then Some (skipn 5 s)
          else number s
      end
  end%N
with elements (fuel : nat) (s : text) : option text :=
  match fuel with
  | O => None
  | S fuel' =>
      match value fuel' s with
      | Some r =>
          match skip_ws r with
          | 44 :: r' => elements fuel' (skip_ws r')
          | 93 :: r' => Some r'
          | _ => None
          end
      | None => None
      end
  end%N
with members (fuel : nat) (s : text) : option text :=
  match fuel with
  | O => None
  | S fuel' =>
      match s with
      | 34 :: r =>
          match chars r with
          | Some r1 =>
              match skip_ws r1 with
              | 58 :: r2 =>
                  match value fuel' (skip_ws r2) with
                  | Some r3 =>
                      match skip_ws r3 with
                      | 44 :: r4 => members fuel' (skip_ws r4)
                      | 125 :: r4 => Some r4
                      | _ => None
                      end
                  | None => None
                  end
              | _ => None
              end
          | None => None
          end
      | _ => None
      end
  end%N.

(** [JSON-text = ws value ws] *)
Definition json_text (doc : text) : bool :=
  match value (2 * length doc + 2) (skip_ws doc) with
  | Some r => match skip_ws r with
              | [] => true
              | _ :: _ => false
              end
  | None => false
  end.

(** A response is valid JSON when its bytes are the UTF-8 of a JSON
    text. *)
Definition valid_json (body : string) : bool :=
  let bs := Reference.bytes_of body in
  match Reference.utf8_decode (S (length bs)) 0 bs with
  | Reference.Text doc => negb (existsb Reference.surrogate doc) && json_text doc
  | Reference.Undecodable _ _ _ _ => false
  end.

End Rfc8259.

(** * Properties *)

(** ** Text *)

Lemma unlines_app (xs ys : list text) :
  unlines (xs ++ ys) = unlines xs ++ unlines ys.
Proof.
  induction xs as [|x xs IH]; [reflexivity|].
  cbn [app unlines]. now rewrite IH, <- !app_assoc.
Qed.

Lemma lines_cons (t rest : text) :
  one_line t = true -> lines (t ++ nl ++ rest) = t :: lines rest.
Proof.
  unfold one_line.
  induction t as [|c t IH]; intros H.
  - reflexivity.
  - cbn [mem_char] in H.
    apply negb_true_iff, orb_false_iff in H. destruct H as [Hc Ht].
    cbn [app lines].
    rewrite N.eqb_sym, Hc.
    change (t ++ LF :: rest) with (t ++ nl ++ rest).
    rewrite IH by now rewrite Ht.
    reflexivity.
Qed.

Lemma lines_unlines (ts : list text) :
  forallb one_line ts = true -> lines (unlines ts) = ts.
Proof.
  induction ts as [|t ts IH]; intros H; [reflexivity|].
  cbn [forallb] in H. apply andb_true_iff in H. destruct H as [Ht Hts].
  cbn [unlines]. now rewrite lines_cons, IH.
Qed.

Lemma one_line_app (a b : text) :
  one_line (a ++ b) = one_line a && one_line b.
Proof.
  unfold one_line.
  induction a as [|c a IH]; [reflexivity|].
  cbn [app mem_char].
  destruct (N.eqb LF c); [reflexivity | exact IH].
Qed.

Lemma length_lines_cons (t rest : text) :
  length (lines (t ++ nl ++ rest)) = S (line_feeds t + length (lines rest)).
Proof.
  induction t as [|c t IH]; [reflexivity|].
  cbn [app lines line_feeds].
  change (t ++ LF :: rest) with (t ++ nl ++ rest).
  destruct (N.eqb c LF).
  - cbn [length]. now rewrite IH.
  - destruct (lines (t ++ nl ++ rest)) as [|l ls]; [discriminate|].
    exact IH.
Qed.

Lemma length_lines_unlines (ts : list text) :
  length (lines (unlines ts)) = length ts + list_sum (map line_feeds ts).
Proof.
  induction ts as [|t ts IH]; [reflexivity|].
  cbn [unlines map length]. rewrite length_lines_cons, IH.
  change (list_sum (line_feeds t :: map line_feeds ts))
    with (line_feeds t + list_sum (map line_feeds ts)).
  lia.
Qed.

Lemma starts_with_app (p s : text) : starts_with p (p ++ s) = true.
Proof.
  induction p as [|c p IH]; [reflexivity|].
  cbn [app starts_with]. now rewrite N.eqb_refl, IH.
Qed.

(** ** [repr] stays on one line *)

Lemma lit_cons (c : ascii) (s : string) : lit (String c s) = N_of_ascii c :: lit s.
Proof. reflexivity. Qed.

Lemma lit_app (a b : string) : lit (a ++ b) = lit a ++ lit b.
Proof.
  induction a as [|c a IH]; [reflexivity|].
  cbn [append]. rewrite !lit_cons, IH. reflexivity.
Qed.

Lemma one_line_digits (d : Decimal.uint) :
  one_line (lit (NilEmpty.string_of_uint d)) = true.
Proof.
  induction d as [| d IH | d IH | d IH | d IH | d IH | d IH | d IH | d IH | d IH | d IH];
    [reflexivity | exact IH ..].
Qed.

Lemma one_line_int_repr (n : Z) : one_line (int_repr n) = true.
Proof.
  unfold int_repr, NilZero.string_of_int, NilZero.string_of_uint.
  destruct (Z.to_int n) as [d|d].
  - destruct d; try reflexivity; apply (one_line_digits (_ d)).
  - rewrite lit_cons. change (N_of_ascii "-" :: ?t) with ([N_of_ascii "-"] ++ t).
    rewrite one_line_app.
    destruct d; try reflexivity; apply (one_line_digits (_ d)).
Qed.

Lemma one_line_hex (width : nat) (n : N) : one_line (hex width n) = true.
Proof.
  revert n. induction width as [|w IH]; intros n; [reflexivity|].
  cbn [hex]. rewrite one_line_app, IH.
  assert (Hd : N.eqb LF (hex_digit (n mod 16)) = false).
  { generalize (n mod 16)%N. intros m. apply N.eqb_neq. unfold LF, hex_digit.
    destruct (N.ltb_spec m 10); lia. }
  unfold one_line. cbn [mem_char]. now rewrite Hd.
Qed.

Lemma one_line_repr_char (isprintable : N -> bool) (quote c : N) :
  quote <> LF -> one_line (repr_char isprintable quote c) = true.
Proof.
  intros Hq. unfold repr_char.
  assert (Hsingle : forall d : N, d <> LF -> one_line [d] = true).
  { intros d Hd. unfold one_line. cbn [mem_char].
    destruct (N.eqb_spec LF d); [congruence | reflexivity]. }
  destruct (N.eqb_spec c quote) as [->|Hcq].
  { cbn [orb]. change [backslash; quote] with ([backslash] ++ [quote]).
    now rewrite one_line_app, (Hsingle quote Hq). }
  destruct (N.eqb_spec c backslash) as [->|Hcb]; [reflexivity|]. cbn [orb].
  destruct (N.eqb_spec c 9); [reflexivity|].
  destruct (N.eqb_spec c 10) as [|Hc]; [reflexivity|].
  destruct (N.eqb_spec c 13); [reflexivity|].
  assert (Hone : one_line [c] = true) by exact (Hsingle c Hc).
  assert (Hhex : forall (p : string) (w : nat),
             one_line (lit p) = true -> one_line (lit p ++ hex w c) = true).
  { intros p w Hp. now rewrite one_line_app, Hp, one_line_hex. }
  destruct ((c <? 32)%N || (c =? 127)%N); [now apply Hhex|].
  destruct (c <? 127)%N; [exact Hone|].
  destruct (isprintable c); [exact Hone|].
  destruct (c <? 256)%N; [now apply Hhex|].
  destruct (c <? 65536)%N; now apply Hhex.
Qed.

Lemma one_line_repr_chars (isprintable : N -> bool) (quote : N) (s : text) :
  quote <> LF -> one_line (repr_chars isprintable quote s) = true.
Proof.
  intros Hq. induction s as [|c s IH]; [reflexivity|].
  cbn [repr_chars]. now rewrite one_line_app, one_line_repr_char, IH.
Qed.

Lemma one_line_str_repr (isprintable : N -> bool) (s : text) :
  one_line (str_repr isprintable s) = true.
Proof.
  unfold str_repr.
  destruct (mem_char squote s && negb (mem_char dquote s)).
  - change (dquote :: ?t) with ([dquote] ++ t).
    rewrite !one_line_app, one_line_repr_chars by discriminate. reflexivity.
  - change (squote :: ?t) with ([squote] ++ t).
    rewrite !one_line_app, one_line_repr_chars by discriminate. reflexivity.
Qed.

Lemma one_line_join (sep : text) (parts : list text) :
  one_line sep = true ->
  forallb one_line parts = true ->
  one_line (join sep parts) = true.
Proof.
  intros Hsep. induction parts as [|p parts IH]; intros H; [reflexivity|].
  cbn [forallb] in H. apply andb_true_iff in H. destruct H as [Hp Hparts].
  destruct parts as [|q parts]; [exact Hp|].
  change (join sep (p :: q :: parts)) with (p ++ sep ++ join sep (q :: parts)).
  now rewrite !one_line_app, Hp, Hsep, IH.
Qed.

Section ReprLines.
Context {F : Type} (isprintable : N -> bool) (float_repr : F -> text).
Hypothesis float_one_line : forall x : F, one_line (float_repr x) = true.

Lemma one_line_py_repr :
  forall v : pyval F, one_line (py_repr isprintable float_repr v) = true.
Proof.
  fix IH 1.
  intros [| [|] | n | x | s | elems | items]; cbn [py_repr]; try reflexivity.
  - apply one_line_int_repr.
  - apply float_one_line.
  - apply one_line_str_repr.
  - rewrite !one_line_app, one_line_join; [reflexivity | reflexivity |].
    induction elems as [|w elems IHelems]; [reflexivity|].
    cbn [map forallb]. now rewrite IH, IHelems.
  - rewrite !one_line_app, one_line_join; [reflexivity | reflexivity |].
    induction items as [|[k w] items IHitems]; [reflexivity|].
    cbn [map forallb]. now rewrite !one_line_app, one_line_str_repr, IH, IHitems.
Qed.

Lemma one_line_py_str (v : pyval F) :
  no_line_feed_str v = true -> one_line (py_str isprintable float_repr v) = true.
Proof.
  destruct v; intros H; try apply one_line_py_repr. exact H.
Qed.

End ReprLines.

(** ** The loop *)

Section Claims.
Context {I : Interp}.

Lemma encodable_app (a b : text) : encodable (a ++ b) = encodable a && encodable b.
Proof. apply forallb_app. Qed.

Lemma encodable_ascii (s : text) :
  forallb (fun c => c <? 128)%N s = true -> encodable s = true.
Proof.
  unfold encodable. rewrite !forallb_forall. intros H c Hc.
  apply ascii_encodable, N.ltb_lt, H, Hc.
Qed.

Lemma encodable_error_line (e : exn) : encodable (error_line e) = true.
Proof.
  unfold error_line. rewrite encodable_app, (encodable_ascii (lit "Error: ")) by reflexivity.
  apply error_encodable.
Qed.

Lemma print_encodable (s out : text) :
  encodable s = true -> print s out = (inr tt, out ++ s ++ nl).
Proof.
  intros H. unfold print. now rewrite H.
Qed.

Lemma subscript_dict (items : list (text * value)) (key : string) (w : value) :
  dict_get (lit key) items = Some w -> subscript (PDict items) key = inr w.
Proof.
  intros H. unfold subscript. now rewrite H.
Qed.

Lemma format_zone_dict (items : list (text * value)) (id_ name : value) :
  dict_get (lit "id") items = Some id_ ->
  dict_get (lit "name") items = Some name ->
  format_zone (PDict items)
  = inr (lit "ID: " ++ str_ id_ ++ lit " - Name: " ++ str_ name).
Proof.
  intros Hid Hname. unfold format_zone.
  rewrite (subscript_dict _ _ _ Hid). cbn [bind exc_monad].
  rewrite (subscript_dict _ _ _ Hname). reflexivity.
Qed.

(** The f-string is built exactly for the well-formed elements. *)
Lemma format_zone_well_formed (z : value) :
  well_formed_zone z = true <-> exists line, format_zone z = inr line.
Proof.
  unfold well_formed_zone, has_key, format_zone, subscript. split.
  - destruct z as [| | | | |elems|items]; cbn [andb]; try discriminate.
    destruct (dict_get (lit "id") items) as [id_|]; cbn [andb bind exc_monad]; [|discriminate].
    destruct (dict_get (lit "name") items) as [name|]; cbn [bind exc_monad]; [|discriminate].
    intros _. eexists. reflexivity.
  - intros [line H].
    destruct z as [| | | | |elems|items]; cbn [bind exc_monad type_of] in H; try discriminate.
    destruct (dict_get (lit "id") items) as [id_|]; cbn [bind exc_monad] in H; [|discriminate].
    destruct (dict_get (lit "name") items) as [name|]; cbn [bind exc_monad] in H; [|discriminate].
    reflexivity.
Qed.

(** The loop body prints the line of the element or raises, and then
    prints nothing. *)
Lemma print_zone_line (z : value) (out : text) :
  print_zone z out
  = match zone_line z with
    | inr line => (inr tt, out ++ line ++ nl)
    | inl e => (inl e, out)
    end.
Proof.
  unfold print_zone, zone_line, eval, print. cbn [bind io_monad exc_monad].
  destruct (format_zone z) as [e|line]; [reflexivity|].
  now destruct (encodable line).
Qed.

Lemma print_zone_ok (z : value) (line out : text) :
  zone_line z = inr line -> print_zone z out = (inr tt, out ++ line ++ nl).
Proof.
  intros H. now rewrite print_zone_line, H.
Qed.

Lemma print_zone_raise (z : value) (e : exn) (out : text) :
  zone_line z = inl e -> print_zone z out = (inl e, out).
Proof.
  intros H. now rewrite print_zone_line, H.
Qed.

(** The line of an element is its f-string, when standard output can
    encode it. *)
Lemma zone_line_format (z : value) (line : text) :
  format_zone z = inr line -> encodable line = true -> zone_line z = inr line.
Proof.
  intros H Henc. unfold zone_line. rewrite H. cbn [bind exc_monad]. now rewrite Henc.
Qed.

Lemma zone_line_inr (z : value) (line : text) :
  zone_line z = inr line -> format_zone z = inr line /\ encodable line = true.
Proof.
  unfold zone_line. destruct (format_zone z) as [e|l]; cbn [bind exc_monad]; [discriminate|].
  destruct (encodable l) eqn:Henc; [|discriminate].
  intros [= <-]. now split.
Qed.

Lemma for_each_ok (zones : list value) (texts : list text) (out : text) :
  map zone_line zones = map inr texts ->
  for_each zones print_zone out = (inr tt, out ++ unlines texts).
Proof.
  revert texts out.
  induction zones as [|z zones IH]; intros [|t texts] out H; try discriminate.
  - cbn. now rewrite app_nil_r.
  - cbn [map] in H. injection H as Hz Hrest.
    cbn [for_each bind io_monad]. rewrite (print_zone_ok _ _ _ Hz), (IH _ _ Hrest).
    cbn [unlines]. now rewrite <- !app_assoc.
Qed.

Lemma for_each_raise (pre post : list value) (z : value) (texts : list text)
      (e : exn) (out : text) :
  map zone_line pre = map inr texts ->
  zone_line z = inl e ->
  for_each (pre ++ z :: post) print_zone out = (inl e, out ++ unlines texts).
Proof.
  revert texts out.
  induction pre as [|p pre IH]; intros [|t texts] out H Hz; try discriminate.
  - cbn [app for_each bind io_monad]. rewrite (print_zone_raise _ _ _ Hz).
    cbn. now rewrite app_nil_r.
  - cbn [map] in H. injection H as Hp Hrest.
    cbn [app for_each bind io_monad].
    rewrite (print_zone_ok _ _ _ Hp), (IH _ _ Hrest Hz).
    cbn [unlines]. now rewrite <- !app_assoc.
Qed.

(** ** The [try] body, step by step *)

Lemma listing_decoded (body : string) (v : value) (out : text) :
  json_loads body = inr v ->
  listing (Exited 0 body) out
  = (zones <- eval (py_iter v) ;; for_each zones print_zone)
      (out ++ unlines [header1; header2]).
Proof.
  intros H. unfold listing, eval.
  cbn [check_output Z.eqb bind io_monad]. rewrite H.
  rewrite (print_encodable header1) by (apply encodable_ascii; reflexivity).
  rewrite (print_encodable header2) by (apply encodable_ascii; reflexivity).
  cbn [unlines]. now rewrite <- !app_assoc, app_nil_r.
Qed.

Lemma listing_not_decoded (body : string) (e : exn) (out : text) :
  json_loads body = inl e -> listing (Exited 0 body) out = (inl e, out).
Proof.
  intros H. unfold listing, eval.
  cbn [check_output Z.eqb bind io_monad]. now rewrite H.
Qed.

Lemma listing_iterated (body : string) (v : value) (zones : list value) (out : text) :
  json_loads body = inr v ->
  py_iter v = inr zones ->
  listing (Exited 0 body) out
  = for_each zones print_zone (out ++ unlines [header1; header2]).
Proof.
  intros H Hiter. rewrite (listing_decoded _ _ _ H).
  unfold eval. cbn [bind io_monad]. now rewrite Hiter.
Qed.

Lemma listing_not_iterable (body : string) (v : value) (e : exn) (out : text) :
  json_loads body = inr v ->
  py_iter v = inl e ->
  listing (Exited 0 body) out = (inl e, out ++ unlines [header1; header2]).
Proof.
  intros H Hiter. rewrite (listing_decoded _ _ _ H).
  unfold eval. cbn [bind io_monad]. now rewrite Hiter.
Qed.

(** The handler's output after [printed] lines. *)
Lemma failed_run (c : child) (e : exn) (printed : list text) :
  listing c [] = (inl e, unlines printed) ->
  run c = {| stdout := unlines (printed ++ [error_line e]); exit_code := 1 |}.
Proof.
  intros H. unfold run, run_from. rewrite H.
  rewrite print_encodable by apply encodable_error_line.
  cbn [snd]. rewrite unlines_app. cbn [unlines]. now rewrite app_nil_r.
Qed.

Lemma succeeded_run (c : child) (printed : list text) :
  listing c [] = (inr tt, unlines printed) ->
  run c = {| stdout := unlines printed; exit_code := 0 |}.
Proof.
  intros H. unfold run, run_from. now rewrite H.
Qed.

(** No byte to decode: the handler's line alone. *)
Lemma run_not_fetched (c : child) (e : exn) :
  check_output curl_cmd c = inl e ->
  run c = {| stdout := unlines [error_line e]; exit_code := 1 |}.
Proof.
  intros H. apply (failed_run _ e []).
  unfold listing, eval. cbn [bind io_monad]. now rewrite H.
Qed.

Lemma run_not_decoded (body : string) (e : exn) :
  json_loads body = inl e ->
  run (Exited 0 body) = {| stdout := unlines [error_line e]; exit_code := 1 |}.
Proof.
  intros H. apply (failed_run _ e []). now rewrite (listing_not_decoded _ _ _ H).
Qed.

(** A raise at an element: the lines printed so far, then the handler's. *)
Lemma run_raise_at (body : string) (v : value) (pre post : list value) (z : value)
      (texts : list text) (e : exn) :
  json_loads body = inr v ->
  py_iter v = inr (pre ++ z :: post) ->
  map zone_line pre = map inr texts ->
  zone_line z = inl e ->
  run (Exited 0 body)
  = {| stdout := unlines (header1 :: header2 :: texts ++ [error_line e]);
       exit_code := 1 |}.
Proof.
  intros H Hiter Hpre Hz.
  apply (failed_run _ e (header1 :: header2 :: texts)).
  rewrite (listing_iterated _ _ _ _ H Hiter), (for_each_raise _ _ _ _ _ _ Hpre Hz).
  change (header1 :: header2 :: texts) with ([header1; header2] ++ texts).
  now rewrite unlines_app.
Qed.

(** The same, with the element given by its index. *)
Lemma run_raise_at_index (body : string) (v : value) (zones : list value) (k : nat)
      (texts : list text) (e : exn) :
  json_loads body = inr v ->
  py_iter v = inr zones ->
  map zone_line (firstn k zones) = map inr texts ->
  nth_error (map zone_line zones) k = Some (inl e) ->
  run (Exited 0 body)
  = {| stdout := unlines (header1 :: header2 :: texts ++ [error_line e]);
       exit_code := 1 |}.
Proof.
  intros H Hiter Hpre Hk.
  rewrite nth_error_map in Hk.
  destruct (nth_error zones k) as [z|] eqn:Hz; [|discriminate].
  injection Hk as Hk.
  destruct (nth_error_split _ _ Hz) as (pre & post & -> & Hlen).
  rewrite firstn_app, <- Hlen, firstn_all, Nat.sub_diag in Hpre.
  cbn [firstn] in Hpre. rewrite app_nil_r in Hpre.
  exact (run_raise_at body v pre post z texts e H Hiter Hpre Hk).
Qed.

Lemma run_not_iterable (body : string) (v : value) (e : exn) :
  json_loads body = inr v ->
  py_iter v = inl e ->
  run (Exited 0 body)
  = {| stdout := unlines [header1; header2; error_line e]; exit_code := 1 |}.
Proof.
  intros H Hiter.
  apply (failed_run _ e [header1; header2]).
  now rewrite (listing_not_iterable _ _ _ _ H Hiter).
Qed.

Lemma run_listing (body : string) (v : value) (zones : list value) (texts : list text) :
  json_loads body = inr v ->
  py_iter v = inr zones ->
  map zone_line zones = map inr texts ->
  run (Exited 0 body)
  = {| stdout := unlines (header1 :: header2 :: texts); exit_code := 0 |}.
Proof.
  intros H Hiter Hzones.
  apply succeeded_run.
  rewrite (listing_iterated _ _ _ _ H Hiter), (for_each_ok _ _ _ Hzones).
  change (header1 :: header2 :: texts) with ([header1; header2] ++ texts).
  now rewrite unlines_app.
Qed.

(** The loop prints every element, or raises at a first one. *)
Lemma all_lines_or_first_raise (zones : list value) :
  (exists texts, map zone_line zones = map inr texts) \/
  (exists pre z post texts e,
     zones = pre ++ z :: post /\
     map zone_line pre = map inr texts /\
     zone_line z = inl e).
Proof.
  induction zones as [|z zones IH].
  - left. now exists [].
  - destruct (zone_line z) as [e|line] eqn:Hz.
    + right. now exists [], z, zones, [], e.
    + destruct IH as [[texts Hall] | (pre & z' & post & texts & e & -> & Hpre & Hz')].
      * left. exists (line :: texts). cbn [map]. now rewrite Hz, Hall.
      * right. exists (z :: pre), z', post, (line :: texts), e.
        cbn [map app]. now rewrite Hz, Hpre.
Qed.

(** Well-formed elements with encodable lines are all printed. *)
Lemma well_formed_texts (zones : list value) :
  forallb well_formed_zone zones = true ->
  forallb zone_encodable zones = true ->
  exists texts,
    map format_zone zones = map inr texts /\ map zone_line zones = map inr texts.
Proof.
  induction zones as [|z zones IH]; intros Hwf Henc.
  - now exists [].
  - cbn [forallb] in Hwf, Henc.
    apply andb_true_iff in Hwf, Henc. destruct Hwf as [Hz Hwf], Henc as [Hze Henc].
    apply format_zone_well_formed in Hz. destruct Hz as [line Hline].
    destruct (IH Hwf Henc) as (texts & Hf & Hl).
    exists (line :: texts). cbn [map]. rewrite Hline, Hf, Hl.
    unfold zone_encodable in Hze. rewrite Hline in Hze.
    now rewrite (zone_line_format z line Hline Hze).
Qed.

Lemma texts_well_formed (zones : list value) (texts : list text) :
  map zone_line zones = map inr texts ->
  forallb well_formed_zone zones = true /\ forallb zone_encodable zones = true.
Proof.
  revert texts. induction zones as [|z zones IH]; intros [|t texts] H;
    try discriminate; [now split|].
  cbn [map] in H. injection H as Hz Hrest.
  destruct (IH _ Hrest) as [Hwf Henc].
  destruct (zone_line_inr z t Hz) as [Hf He].
  cbn [forallb]. rewrite Hwf, Henc, !andb_true_r. split.
  - apply format_zone_well_formed. now exists t.
  - unfold zone_encodable. now rewrite Hf.
Qed.

Lemma unlines_headers (rest : list text) :
  unlines (header1 :: header2 :: rest) = unlines [header1; header2] ++ unlines rest.
Proof.
  change (header1 :: header2 :: rest) with ([header1; header2] ++ rest).
  apply unlines_app.
Qed.

Lemma check_output_cases (c : child) :
  (exists e, check_output curl_cmd c = inl e) \/ (exists body, c = Exited 0 body).
Proof.
  destruct c as [why | rc captured].
  - left. now exists (OSError why).
  - destruct (Z.eqb_spec rc 0) as [-> | Hrc].
    + right. now exists captured.
    + left. exists (CalledProcessError rc curl_cmd captured).
      cbn [check_output]. apply Z.eqb_neq in Hrc. now rewrite Hrc.
Qed.

(** ** The claims *)


(** C2 (as amended). For a response on which [json.loads] raises, the
    script prints the single line [Error: ...] with the text of the
    exception, exits with status 1, and neither header line is in its
    output. *)
Theorem C2_rejected_body_single_error_line (body : string) (e : exn) :
  json_loads body = inl e ->
  lines (stdout (run (Exited 0 body))) = [lit "Error: " ++ exn_str e] /\
  starts_with (lit "Error: ") (stdout (run (Exited 0 body))) = true /\
  exit_code (run (Exited 0 body)) = 1%Z /\
  ~ In header1 (lines (stdout (run (Exited 0 body)))) /\
  ~ In header2 (lines (stdout (run (Exited 0 body)))).
Proof.
  intros H.
  assert (Hline := json_error_one_line body e H).
  assert (Hrun := run_not_decoded body e H).
  assert (Hlines : lines (stdout (run (Exited 0 body))) = [error_line e]).
  { rewrite Hrun. cbn [stdout]. apply lines_unlines.
    cbn [forallb]. unfold error_line. rewrite one_line_app, Hline. reflexivity. }
  rewrite Hlines, Hrun. unfold error_line.
  repeat split; intros [Heq|[]]; discriminate Heq.
Qed.

(** C3 (as amended). For a response that [json.loads] does not turn into
    an array, the empty object or the empty string, the script fails: the
    last line it prints is [Error: ...], after nothing or after the two
    header lines, and it exits with status 1. *)
Theorem C3_not_array_nor_empty_fails (body : string) :
  array_or_empty (json_loads body) = false ->
  exists (printed : list text) (e : exn),
    (printed = [] \/ printed = [header1; header2]) /\
    run (Exited 0 body)
    = {| stdout := unlines (printed ++ [error_line e]); exit_code := 1 |}.
Proof.
  unfold array_or_empty. intros Hnot.
  destruct (json_loads body) as [e|v] eqn:H.
  { exists [], e. split; [now left | exact (run_not_decoded body e H)]. }
  apply orb_false_iff in Hnot. destruct Hnot as [Harr Hempty].
  destruct v as [| b | n | x | s | elems | items]; try discriminate.
  - exists [header1; header2], (TypeError (NotIterable TNoneType)).
    split; [now right | now apply (run_not_iterable body PNone)].
  - exists [header1; header2], (TypeError (NotIterable TBool)).
    split; [now right | now apply (run_not_iterable body (PBool b))].
  - exists [header1; header2], (TypeError (NotIterable TInt)).
    split; [now right | now apply (run_not_iterable body (PInt n))].
  - exists [header1; header2], (TypeError (NotIterable TFloat)).
    split; [now right | now apply (run_not_iterable body (PFloat x))].
  - destruct s as [|c s]; [discriminate|].
    exists [header1; header2], (TypeError (IndexNotInteger TStr)).
    split; [now right|].
    exact (run_raise_at body (PStr (c :: s)) [] _ _ [] _ H eq_refl eq_refl eq_refl).
  - destruct items as [|[k w] items]; [discriminate|].
    exists [header1; header2], (TypeError (IndexNotInteger TStr)).
    split; [now right|].
    exact (run_raise_at body (PDict ((k, w) :: items)) [] _ _ [] _ H eq_refl eq_refl eq_refl).
Qed.

(** An element that is not an object with both keys raises in the
    f-string. *)
Lemma ill_formed_raises (z : value) :
  well_formed_zone z = false -> exists e, zone_line z = inl e.
Proof.
  intros Hz. destruct (zone_line z) as [e|line] eqn:Hline; [now exists e|].
  destruct (zone_line_inr z line Hline) as [Hf _].
  assert (Hwf : well_formed_zone z = true) by (apply format_zone_well_formed; now exists line).
  congruence.
Qed.


(** C5. Once the response is decoded, a failure leaves what was printed.
    When the loop body raises at element [k] of what the loop walks over,
    the output is the two header lines, the record lines of elements [0]
    to [k-1], then the [Error: ...] line, with exit status 1, and the
    elements after [k] have no part in it: a response that agrees up to
    element [k] gives the same outcome.  Every failed run has this shape,
    for some [k], or failed before the first element, on a value the loop
    cannot walk over. *)
Theorem C5_failure_keeps_printed_lines (body : string) (v : value) :
  json_loads body = inr v ->
  (forall (zones : list value) (k : nat) (texts : list text) (e : exn),
     py_iter v = inr zones ->
     map zone_line (firstn k zones) = map inr texts ->
     nth_error (map zone_line zones) k = Some (inl e) ->
     run (Exited 0 body)
     = {| stdout := unlines (header1 :: header2 :: texts ++ [error_line e]);
          exit_code := 1 |} /\
     forall (body' : string) (v' : value) (zones' : list value),
       json_loads body' = inr v' ->
       py_iter v' = inr zones' ->
       firstn (S k) zones' = firstn (S k) zones ->
       run (Exited 0 body') = run (Exited 0 body)) /\
  (exit_code (run (Exited 0 body)) = 1%Z ->
   exists (texts : list text) (e : exn),
     stdout (run (Exited 0 body))
     = unlines (header1 :: header2 :: texts ++ [error_line e]) /\
     (py_iter v = inl e /\ texts = [] \/
      exists (zones : list value) (k : nat),
        py_iter v = inr zones /\
        map zone_line (firstn k zones) = map inr texts /\
        nth_error (map zone_line zones) k = Some (inl e))).
Proof.
  intros H. split.
  - intros zones k texts e Hiter Hpre Hk.
    split; [exact (run_raise_at_index body v zones k texts e H Hiter Hpre Hk)|].
    intros body' v' zones' H' Hiter' Hsame.
    rewrite (run_raise_at_index body v zones k texts e H Hiter Hpre Hk).
    apply (run_raise_at_index body' v' zones' k texts e H' Hiter').
    + assert (Hcut : forall l : list value, firstn k l = firstn k (firstn (S k) l))
        by (intros l; now rewrite firstn_firstn, Nat.min_l by lia).
      now rewrite (Hcut zones'), Hsame, <- Hcut.
    + assert (Hcut : forall l : list value, nth_error l k = nth_error (firstn (S k) l) k).
      { intros l. rewrite nth_error_firstn.
        now rewrite (proj2 (Nat.ltb_lt k (S k)) (Nat.lt_succ_diag_r k)). }
      rewrite <- Hk, !nth_error_map.
      now rewrite (Hcut zones'), Hsame, <- Hcut.
  - intros Hexit.
    destruct (py_iter v) as [e|zones] eqn:Hiter.
    { exists [], e. rewrite (run_not_iterable body v e H Hiter). now split; [|left]. }
    destruct (all_lines_or_first_raise zones)
      as [[texts Hall] | (pre & z & post & texts & e & -> & Hpre & Hz)].
    { rewrite (run_listing body v zones texts H Hiter Hall) in Hexit. discriminate. }
    exists texts, e.
    rewrite (run_raise_at body v pre post z texts e H Hiter Hpre Hz).
    split; [reflexivity|]. right.
    exists (pre ++ z :: post), (length pre). repeat split.
    + rewrite firstn_app, firstn_all, Nat.sub_diag. cbn [firstn].
      now rewrite app_nil_r.
    + rewrite nth_error_map, nth_error_app2, Nat.sub_diag by lia.
      cbn [nth_error option_map]. now rewrite Hz.
Qed.

(** C6. When the curl child ends with a status other than 0, the script
    prints [Error: ...] for the CalledProcessError of [check_output], and
    nothing else, and exits with status 1. *)
Theorem C6_nonzero_exit_is_failure (rc : Z) (captured : string) :
  rc <> 0%Z ->
  run (Exited rc captured)
  = {| stdout := unlines [error_line (CalledProcessError rc curl_cmd captured)];
       exit_code := 1 |}.
Proof.
  intros Hrc. apply run_not_fetched.
  cbn [check_output]. apply Z.eqb_neq in Hrc. now rewrite Hrc.
Qed.

(** C7. For an object with [id] and [name], the f-string gives one text:
    [ID: ], [str] of the id, [ - Name: ], [str] of the name, for values
    of any type, and the loop body is [print] of this text: what it
    emits is this text and a line feed.  A str value goes in as it is,
    with no quotes and no escapes. *)
Theorem C7_record_line_verbatim (items : list (text * value)) (id_ name : value)
        (out : text) :
  dict_get (lit "id") items = Some id_ ->
  dict_get (lit "name") items = Some name ->
  format_zone (PDict items)
  = inr (lit "ID: " ++ py_str isprintable float_repr id_
           ++ lit " - Name: " ++ py_str isprintable float_repr name) /\
  print_zone (PDict items) out
  = print (lit "ID: " ++ py_str isprintable float_repr id_
             ++ lit " - Name: " ++ py_str isprintable float_repr name) out /\
  (encodable (py_str isprintable float_repr id_) = true ->
   encodable (py_str isprintable float_repr name) = true ->
   print_zone (PDict items) out
   = (inr tt,
      out ++ (lit "ID: " ++ py_str isprintable float_repr id_
                ++ lit " - Name: " ++ py_str isprintable float_repr name) ++ nl)) /\
  forall a b : text,
    id_ = PStr a -> name = PStr b ->
    format_zone (PDict items) = inr (lit "ID: " ++ a ++ lit " - Name: " ++ b) /\
    (encodable a = true -> encodable b = true ->
     print_zone (PDict items) out
     = (inr tt, out ++ (lit "ID: " ++ a ++ lit " - Name: " ++ b) ++ nl)).
Proof.
  intros Hid Hname.
  assert (Hf := format_zone_dict _ _ _ Hid Hname). unfold str_ in Hf.
  assert (Hp : print_zone (PDict items) out
               = print (lit "ID: " ++ py_str isprintable float_repr id_
                          ++ lit " - Name: " ++ py_str isprintable float_repr name) out).
  { unfold print_zone, eval. cbn [bind io_monad]. now rewrite Hf. }
  assert (Hok : encodable (py_str isprintable float_repr id_) = true ->
                encodable (py_str isprintable float_repr name) = true ->
                print_zone (PDict items) out
                = (inr tt,
                   out ++ (lit "ID: " ++ py_str isprintable float_repr id_
                             ++ lit " - Name: " ++ py_str isprintable float_repr name)
                       ++ nl)).
  { intros Hi Hn. rewrite Hp. apply print_encodable.
    rewrite !encodable_app, Hi, Hn.
    now rewrite (encodable_ascii (lit "ID: ")), (encodable_ascii (lit " - Name: ")). }
  repeat split; try assumption.
  - subst id_ name. exact Hf.
  - subst id_ name. exact Hok.
Qed.

(** C9. For a response decoded to the empty object or to the empty
    string, neither of them an array, the script prints the two header
    lines and nothing else, and exits with status 0. *)
Theorem C9_empty_object_or_string_succeeds (body : string) (v : value) :
  json_loads body = inr v ->
  empty_object_or_string v = true ->
  is_array v = false /\
  run (Exited 0 body) = {| stdout := unlines [header1; header2]; exit_code := 0 |} /\
  lines (stdout (run (Exited 0 body))) = [header1; header2].
Proof.
  intros H Hempty.
  assert (Hiter : py_iter v = inr [] /\ is_array v = false).
  { destruct v as [| | | | s | | items]; try discriminate.
    - destruct s; [now split | discriminate].
    - destruct items; [now split | discriminate]. }
  destruct Hiter as [Hiter Harr].
  assert (Hrun := run_listing body v [] [] H Hiter eq_refl).
  repeat split; [exact Harr | exact Hrun |].
  now rewrite Hrun.
Qed.

(** C10. For an object with [id] and [name], fields besides these two
    change nothing: the loop body does what it does for the object with
    just these two values, printing the same line, and no field is
    missed; it raises only if standard output cannot encode the line of
    the two values. *)
Theorem C10_extra_fields_ignored (items : list (text * value)) (id_ name : value)
        (out : text) :
  dict_get (lit "id") items = Some id_ ->
  dict_get (lit "name") items = Some name ->
  print_zone (PDict items) out
  = print_zone (PDict [(lit "id", id_); (lit "name", name)]) out /\
  format_zone (PDict items) = format_zone (PDict [(lit "id", id_); (lit "name", name)]) /\
  (encodable (str_ id_) = true -> encodable (str_ name) = true ->
   fst (print_zone (PDict items) out) = inr tt).
Proof.
  intros Hid Hname.
  assert (Hf := format_zone_dict _ _ _ Hid Hname).
  assert (Hf2 := format_zone_dict [(lit "id", id_); (lit "name", name)] id_ name
                   eq_refl eq_refl).
  repeat split.
  - unfold print_zone, eval. cbn [bind io_monad]. now rewrite Hf, Hf2.
  - now rewrite Hf, Hf2.
  - intros Hi Hn.
    rewrite (print_zone_ok (PDict items)
               (lit "ID: " ++ str_ id_ ++ lit " - Name: " ++ str_ name) out);
      [reflexivity|].
    apply zone_line_format; [exact Hf|].
    rewrite !encodable_app, Hi, Hn.
    now rewrite (encodable_ascii (lit "ID: ")), (encodable_ascii (lit " - Name: ")).
Qed.

(** ** More on the script's runs *)

(** X1. The script exits with status 0 exactly when curl ended with
    status 0, its output was decoded to a value the loop can walk over,
    and every element is an object with [id] and [name] whose line
    standard output can encode. *)
Theorem X1_exit_zero_iff_all_steps_succeed (c : child) :
  exit_code (run c) = 0%Z <->
  exists (body : string) (v : value) (zones : list value),
    c = Exited 0 body /\
    json_loads body = inr v /\
    py_iter v = inr zones /\
    forallb well_formed_zone zones = true /\
    forallb zone_encodable zones = true.
Proof.
  split.
  - intros Hexit.
    destruct (check_output_cases c) as [[e He] | [body ->]].
    { rewrite (run_not_fetched c e He) in Hexit. discriminate. }
    destruct (json_loads body) as [e|v] eqn:H.
    { rewrite (run_not_decoded body e H) in Hexit. discriminate. }
    destruct (py_iter v) as [e|zones] eqn:Hiter.
    { rewrite (run_not_iterable body v e H Hiter) in Hexit. discriminate. }
    destruct (all_lines_or_first_raise zones)
      as [[texts Hall] | (pre & z & post & texts & e & -> & Hpre & Hz)].
    + exists body, v, zones.
      destruct (texts_well_formed _ _ Hall) as [Hwf Henc].
      repeat split; assumption.
    + rewrite (run_raise_at body v pre post z texts e H Hiter Hpre Hz) in Hexit.
      discriminate.
  - intros (body & v & zones & -> & H & Hiter & Hwf & Henc).
    destruct (well_formed_texts _ Hwf Henc) as (texts & _ & Htexts).
    now rewrite (run_listing body v zones texts H Hiter Htexts).
Qed.

(** X2. The output starts with the two header lines exactly when curl
    ended with status 0 and its output was decoded: a failure of the fetch
    or of the decoding prints no header, a later failure comes after
    both. *)
Theorem X2_headers_iff_decoded (c : child) :
  starts_with (unlines [header1; header2]) (stdout (run c)) = true <->
  exists (body : string) (v : value), c = Exited 0 body /\ json_loads body = inr v.
Proof.
  split.
  - intros Hstart.
    destruct (check_output_cases c) as [[e He] | [body ->]].
    { rewrite (run_not_fetched c e He) in Hstart. discriminate. }
    destruct (json_loads body) as [e|v] eqn:H.
    { rewrite (run_not_decoded body e H) in Hstart. discriminate. }
    now exists body, v.
  - intros (body & v & -> & H).
    destruct (py_iter v) as [e|zones] eqn:Hiter.
    { rewrite (run_not_iterable body v e H Hiter). cbn [stdout].
      rewrite (unlines_headers [error_line e]). apply starts_with_app. }
    destruct (all_lines_or_first_raise zones)
      as [[texts Hall] | (pre & z & post & texts & e & -> & Hpre & Hz)].
    + rewrite (run_listing body v zones texts H Hiter Hall). cbn [stdout].
      rewrite (unlines_headers texts). apply starts_with_app.
    + rewrite (run_raise_at body v pre post z texts e H Hiter Hpre Hz). cbn [stdout].
      rewrite (unlines_headers (texts ++ [error_line e])). apply starts_with_app.
Qed.

(** X3. Every run has one of three shapes: the headers and the record
    texts, with status 0; the headers, record texts and then one
    [Error: ...] line, with status 1; or that line alone, with status 1.
    So the status is 0 or 1, it is 1 exactly when the handler's line is
    printed, and nothing is printed after that line. *)
Theorem X3_shape_of_every_run (c : child) :
  (exists texts : list text,
     run c = {| stdout := unlines (header1 :: header2 :: texts); exit_code := 0 |}) \/
  (exists (texts : list text) (e : exn),
     run c = {| stdout := unlines (header1 :: header2 :: texts ++ [error_line e]);
                exit_code := 1 |}) \/
  (exists e : exn,
     run c = {| stdout := unlines [error_line e]; exit_code := 1 |}).
Proof.
  destruct (check_output_cases c) as [[e He] | [body ->]].
  { right. right. exists e. exact (run_not_fetched c e He). }
  destruct (json_loads body) as [e|v] eqn:H.
  { right. right. exists e. exact (run_not_decoded body e H). }
  destruct (py_iter v) as [e|zones] eqn:Hiter.
  { right. left. exists [], e. exact (run_not_iterable body v e H Hiter). }
  destruct (all_lines_or_first_raise zones)
    as [[texts Hall] | (pre & z & post & texts & e & -> & Hpre & Hz)].
  - left. exists texts. exact (run_listing body v zones texts H Hiter Hall).
  - right. left. exists texts, e.
    exact (run_raise_at body v pre post z texts e H Hiter Hpre Hz).
Qed.

(** X4. When the elements before an object that lacks a key are printed,
    the error line is that of a KeyError for the key the f-string reads
    first and does not find: [id] when it is absent, whether [name] is
    there or not, and [name] otherwise. *)
Theorem X4_error_names_first_missing_key (body : string) (pre post : list value)
        (items : list (text * value)) (key : string) :
  json_loads body = inr (PList (pre ++ PDict items :: post)) ->
  forallb well_formed_zone pre = true ->
  forallb zone_encodable pre = true ->
  missing_key items = Some key ->
  exists texts : list text,
    map format_zone pre = map inr texts /\
    run (Exited 0 body)
    = {| stdout := unlines (header1 :: header2 :: texts ++ [error_line (KeyError key)]);
         exit_code := 1 |}.
Proof.
  intros H Hpre Henc Hkey.
  destruct (well_formed_texts _ Hpre Henc) as (texts & Htexts & Hlines).
  exists texts. split; [exact Htexts|].
  apply (run_raise_at body _ pre post (PDict items) texts (KeyError key) H eq_refl Hlines).
  unfold missing_key in Hkey. unfold zone_line, format_zone, subscript.
  destruct (dict_get (lit "id") items) as [id_|]; cbn [bind exc_monad].
  - destruct (dict_get (lit "name") items) as [name|]; [discriminate|].
    now injection Hkey as <-.
  - now injection Hkey as <-.
Qed.

(** X6. Elements added at the end of the array only add to the end of
    the output: the output for the longer array starts with the whole
    output for the shorter one, and when the shorter one already failed,
    the outcome is the same. *)
Theorem X6_more_elements_extend_output (body1 body2 : string) (zones more : list value) :
  json_loads body1 = inr (PList zones) ->
  json_loads body2 = inr (PList (zones ++ more)) ->
  (exists rest : text,
     stdout (run (Exited 0 body2)) = stdout (run (Exited 0 body1)) ++ rest) /\
  (exit_code (run (Exited 0 body1)) = 1%Z ->
   run (Exited 0 body2) = run (Exited 0 body1)).
Proof.
  intros H1 H2.
  destruct (all_lines_or_first_raise zones)
    as [[texts Hall] | (pre & z & post & texts & e & -> & Hpre & Hz)].
  - rewrite (run_listing body1 _ zones texts H1 eq_refl Hall). cbn [stdout exit_code].
    split; [|discriminate].
    destruct (all_lines_or_first_raise more)
      as [[texts' Hall'] | (pre & z & post & texts' & e & -> & Hpre & Hz)].
    + exists (unlines texts').
      rewrite (run_listing body2 _ (zones ++ more) (texts ++ texts') H2 eq_refl)
        by now rewrite !map_app, Hall, Hall'.
      cbn [stdout].
      change (header1 :: header2 :: texts ++ texts')
        with ((header1 :: header2 :: texts) ++ texts').
      apply unlines_app.
    + exists (unlines (texts' ++ [error_line e])).
      rewrite app_assoc in H2.
      rewrite (run_raise_at body2 _ (zones ++ pre) post z (texts ++ texts') e H2 eq_refl)
        by (try assumption; now rewrite !map_app, Hall, Hpre).
      cbn [stdout]. rewrite <- app_assoc.
      change (header1 :: header2 :: texts ++ texts' ++ [error_line e])
        with ((header1 :: header2 :: texts) ++ (texts' ++ [error_line e])).
      apply unlines_app.
  - rewrite <- app_assoc in H2. cbn [app] in H2.
    rewrite (run_raise_at body1 _ pre post z texts e H1 eq_refl Hpre Hz).
    rewrite (run_raise_at body2 _ pre (post ++ more) z texts e H2 eq_refl Hpre Hz).
    split; [|reflexivity].
    exists []. cbn [stdout]. now rewrite app_nil_r.
Qed.

(** X7. For an array of [N] objects with [id] and [name] whose record
    texts standard output can encode, the output has [2 + N] lines and
    one more for every line feed in a record text. *)
Theorem X7_line_count_of_listing (body : string) (zones : list value) :
  json_loads body = inr (PList zones) ->
  forallb well_formed_zone zones = true ->
  forallb zone_encodable zones = true ->
  exists texts : list text,
    map format_zone zones = map inr texts /\
    length (lines (stdout (run (Exited 0 body))))
    = 2 + length zones + list_sum (map line_feeds texts).
Proof.
  intros H Hwf Henc.
  destruct (well_formed_texts _ Hwf Henc) as (texts & Htexts & Hlines).
  exists texts. split; [exact Htexts|].
  rewrite (run_listing body _ zones texts H eq_refl Hlines). cbn [stdout].
  rewrite length_lines_unlines. cbn [length map].
  rewrite <- (length_map format_zone zones), Htexts, length_map.
  change (list_sum (line_feeds header1 :: line_feeds header2 :: map line_feeds texts))
    with (list_sum (map line_feeds texts)).
  reflexivity.
Qed.

Lemma plain_zone_text (z : value) :
  (forall x : pyfloat, one_line (float_repr x) = true) ->
  plain_zone z = true ->
  exists line, format_zone z = inr line /\ one_line line = true.
Proof.
  intros Hfloat Hplain.
  destruct z as [| | | | | |items]; try discriminate.
  cbn [plain_zone] in Hplain.
  destruct (dict_get (lit "id") items) as [id_|] eqn:Hid; [|discriminate].
  destruct (dict_get (lit "name") items) as [name|] eqn:Hname; [|discriminate].
  apply andb_true_iff in Hplain. destruct Hplain as [Hi Hn].
  eexists. split; [exact (format_zone_dict items id_ name Hid Hname)|].
  unfold str_. rewrite !one_line_app.
  now rewrite (one_line_py_str isprintable float_repr Hfloat id_ Hi),
              (one_line_py_str isprintable float_repr Hfloat name Hn).
Qed.

(** X5. Only a str can break a record over lines.  With floats printed
    on one line, an array of [N] objects whose [id] and [name] are of any
    type, the strs among them without a line feed, and whose record texts
    standard output can encode, is listed on exactly [2 + N] lines, the
    headers and one line per element, with status 0: [repr] escapes the
    line feeds inside arrays and objects. *)
Theorem X5_plain_zones_one_line_each (body : string) (zones : list value) :
  (forall x : pyfloat, one_line (float_repr x) = true) ->
  json_loads body = inr (PList zones) ->
  forallb plain_zone zones = true ->
  forallb zone_encodable zones = true ->
  exists texts : list text,
    map format_zone zones = map inr texts /\
    lines (stdout (run (Exited 0 body))) = header1 :: header2 :: texts /\
    length (lines (stdout (run (Exited 0 body)))) = 2 + length zones /\
    exit_code (run (Exited 0 body)) = 0%Z.
Proof.
  intros Hfloat H Hplain Henc.
  assert (Htexts : exists texts,
             map format_zone zones = map inr texts /\
             map zone_line zones = map inr texts /\
             forallb one_line texts = true).
  { clear H. induction zones as [|z zones IH].
    - now exists [].
    - cbn [forallb] in Hplain, Henc. apply andb_true_iff in Hplain, Henc.
      destruct Hplain as [Hz Hrest], Henc as [Hze Henc].
      destruct (plain_zone_text z Hfloat Hz) as (line & Hline & Hone).
      destruct (IH Hrest Henc) as (texts & Hmap & Hlines & Hall).
      exists (line :: texts). cbn [map forallb].
      unfold zone_encodable in Hze. rewrite Hline in Hze.
      now rewrite Hline, (zone_line_format z line Hline Hze), Hmap, Hlines, Hone, Hall. }
  destruct Htexts as (texts & Hmap & Hlines & Hall).
  exists texts.
  rewrite (run_listing body _ zones texts H eq_refl Hlines). cbn [stdout exit_code].
  rewrite (lines_unlines (header1 :: header2 :: texts)) by exact Hall.
  repeat split; [exact Hmap|].
  cbn [length]. now rewrite <- (length_map format_zone zones), Hmap, length_map.
Qed.

End Claims.

(** ** The reference interpreter keeps the laws *)

Lemma small_app (a b : text) : small (a ++ b) = small a && small b.
Proof. apply forallb_app. Qed.

Lemma small_cons (c : N) (t : text) : small (c :: t) = (c <? 256)%N && small t.
Proof. reflexivity. Qed.

Lemma small_lit (s : string) : small (lit s) = true.
Proof.
  induction s as [|c s IH]; [reflexivity|].
  rewrite lit_cons, small_cons, IH.
  now rewrite (proj2 (N.ltb_lt _ _) (N_ascii_bounded c)).
Qed.

Lemma small_hex (width : nat) (n : N) : small (hex width n) = true.
Proof.
  revert n. induction width as [|w IH]; intros n; [reflexivity|].
  cbn [hex]. rewrite small_app, IH, small_cons. cbn [small forallb andb].
  rewrite andb_true_r. apply N.ltb_lt.
  assert (Hm : (n mod 16 < 16)%N) by now apply N.mod_lt.
  revert Hm. generalize (n mod 16)%N. intros m Hm. unfold hex_digit.
  destruct (N.ltb_spec m 10); lia.
Qed.

Lemma lit_message_of (t : text) : small t = true -> lit (Reference.message_of t) = t.
Proof.
  unfold Reference.message_of, lit.
  induction t as [|c t IH]; intros H; [reflexivity|].
  rewrite small_cons in H. apply andb_true_iff in H. destruct H as [Hc Ht].
  cbn [map string_of_list_ascii list_ascii_of_string].
  rewrite N_ascii_embedding by now apply N.ltb_lt.
  f_equal. exact (IH Ht).
Qed.

Lemma small_utf8 (t : text) : small t = true -> forallb Reference.utf8_char t = true.
Proof.
  unfold small. rewrite !forallb_forall. intros H c Hc.
  specialize (H c Hc). apply N.ltb_lt in H.
  unfold Reference.utf8_char, Reference.surrogate.
  destruct (N.leb_spec 55296 c); [lia | reflexivity].
Qed.

Lemma ascii_utf8 (c : N) : (c < 128)%N -> Reference.utf8_char c = true.
Proof.
  intros H. unfold Reference.utf8_char, Reference.surrogate.
  destruct (N.leb_spec 55296 c); [lia | reflexivity].
Qed.

Lemma small_repr_char (isprintable : N -> bool) (quote c : N) :
  (c <? 256)%N = true -> small (repr_char isprintable quote c) = true.
Proof.
  intros Hc. unfold repr_char.
  assert (Hsingle : small [c] = true) by now rewrite small_cons, Hc.
  assert (Hhex : forall (p : string) (w : nat), small (lit p ++ hex w c) = true)
    by (intros p w; now rewrite small_app, small_lit, small_hex).
  destruct (N.eqb c quote || N.eqb c backslash).
  { change [backslash; c] with ([backslash] ++ [c]). now rewrite small_app, Hsingle. }
  repeat match goal with
         | |- small (if ?b then _ else _) = true => destruct b
         end; try apply small_lit; try apply Hhex; exact Hsingle.
Qed.

Lemma small_repr_chars (isprintable : N -> bool) (quote : N) (s : text) :
  small s = true -> small (repr_chars isprintable quote s) = true.
Proof.
  induction s as [|c s IH]; intros H; [reflexivity|].
  rewrite small_cons in H. apply andb_true_iff in H. destruct H as [Hc Hs].
  cbn [repr_chars]. now rewrite small_app, small_repr_char, IH.
Qed.

Lemma small_str_repr (isprintable : N -> bool) (s : text) :
  small s = true -> small (str_repr isprintable s) = true.
Proof.
  intros H. unfold str_repr.
  destruct (mem_char squote s && negb (mem_char dquote s));
    rewrite small_cons, small_app, small_repr_chars by exact H; reflexivity.
Qed.

Lemma small_join (sep : text) (parts : list text) :
  small sep = true -> forallb small parts = true -> small (join sep parts) = true.
Proof.
  intros Hsep. induction parts as [|p parts IH]; intros H; [reflexivity|].
  cbn [forallb] in H. apply andb_true_iff in H. destruct H as [Hp Hparts].
  destruct parts as [|q parts]; [exact Hp|].
  change (join sep (p :: q :: parts)) with (p ++ sep ++ join sep (q :: parts)).
  now rewrite !small_app, Hp, Hsep, IH.
Qed.

Lemma small_int_repr (n : Z) : small (int_repr n) = true.
Proof. apply small_lit. Qed.

Lemma small_nat_repr (n : nat) : small (Reference.nat_repr n) = true.
Proof. apply small_lit. Qed.

Lemma small_char_escape (c : N) : small (Reference.char_escape c) = true.
Proof.
  unfold Reference.char_escape.
  destruct (c <? 256)%N; [|destruct (c <? 65536)%N];
    now rewrite small_app, small_lit, small_hex.
Qed.

Lemma small_encode_error_text (t : text) : small (Reference.encode_error_text t) = true.
Proof.
  unfold Reference.encode_error_text.
  rewrite !small_app, !small_lit. cbn [andb]. rewrite andb_true_r.
  destruct (Reference.take_while Reference.surrogate _) as [|c [|d bad]];
    rewrite ?small_app, ?small_lit, ?small_nat_repr, ?small_char_escape; reflexivity.
Qed.

Lemma small_exn_text (e : exn) : small (Reference.exn_text e) = true.
Proof.
  destruct e as [msg | rc cmd output | msg | msg | why | key | t]; cbn [Reference.exn_text].
  - apply small_lit.
  - assert (Hshown : small (lit "Command '"
                              ++ py_repr Reference.printable Reference.special_repr
                                   (PList (map (fun c => PStr (lit c)) cmd))
                              ++ lit "' ") = true).
    { cbn [py_repr]. rewrite !small_app, !small_lit. cbn [andb]. rewrite andb_true_r.
      rewrite andb_true_r.
      apply small_join; [reflexivity|].
      induction cmd as [|c cmd IH]; [reflexivity|].
      cbn [map forallb py_repr]. now rewrite small_str_repr, IH by apply small_lit. }
    destruct (rc <? 0)%Z; [destruct (Reference.signal_name (- rc))|];
      rewrite small_app, Hshown, ?small_app, ?small_lit, ?small_int_repr; reflexivity.
  - apply small_lit.
  - apply small_lit.
  - destruct why as [t | t | t]; [| |destruct t];
      rewrite ?small_app, ?small_lit; reflexivity.
  - apply small_str_repr, small_lit.
  - apply small_encode_error_text.
Qed.

Lemma exn_text_encodable (e : exn) :
  forallb Reference.utf8_char (Reference.exn_text e) = true.
Proof. apply small_utf8, small_exn_text. Qed.

(** The messages of [json.loads] are of one line. *)

Lemma one_line_nat_repr (n : nat) : one_line (Reference.nat_repr n) = true.
Proof. apply one_line_digits. Qed.

Lemma one_line_message_of (t : text) :
  small t = true -> one_line t = true -> one_line (lit (Reference.message_of t)) = true.
Proof.
  intros Hsmall Hone. now rewrite lit_message_of.
Qed.

Lemma one_line_decode_error (b : N) (first last : nat) (why : Reference.reason) :
  one_line (Reference.exn_text (Reference.decode_error b first last why)) = true.
Proof.
  unfold Reference.decode_error, Reference.byte_repr. cbn [Reference.exn_text].
  apply one_line_message_of.
  - destruct (Nat.eqb first last);
      now rewrite !small_app, ?small_lit, ?small_hex, ?small_nat_repr.
  - destruct (Nat.eqb first last);
      rewrite !one_line_app, ?one_line_hex, ?one_line_nat_repr; now destruct why.
Qed.

Lemma one_line_json_error (doc : text) (msg : Reference.message) (rest : text) :
  one_line (Reference.exn_text (Reference.json_error doc msg rest)) = true.
Proof.
  unfold Reference.json_error. cbn [Reference.exn_text].
  apply one_line_message_of.
  - now rewrite !small_app, ?small_lit, ?small_nat_repr.
  - rewrite !one_line_app, ?one_line_nat_repr. now destruct msg.
Qed.

Lemma one_line_limit_error (l : Reference.limit) :
  one_line (Reference.exn_text (Reference.limit_error l)) = true.
Proof.
  destruct l as [n | |]; cbn [Reference.limit_error Reference.exn_text];
    [|reflexivity..].
  apply one_line_message_of.
  - now rewrite !small_app, ?small_lit, ?small_nat_repr.
  - now rewrite !one_line_app, ?one_line_nat_repr.
Qed.

Lemma one_line_loads (doc : string) (e : exn) :
  Reference.loads doc = inl e -> one_line (Reference.exn_text e) = true.
Proof.
  unfold Reference.loads, Reference.decode.
  destruct (Reference.utf8_body _) as [bs|]; [|intros [= <-]; reflexivity].
  destruct (Reference.utf8_decode _ _ _) as [t | b first last why].
  - destruct (Reference.scan_once _ _ _) as [v rest | msg rest | l |].
    + destruct (Reference.skip_ws rest) as [|c r]; [discriminate|].
      intros [= <-]. apply one_line_json_error.
    + intros [= <-]. apply one_line_json_error.
    + intros [= <-]. apply one_line_limit_error.
    + intros [= <-]. reflexivity.
  - intros [= <-]. apply one_line_decode_error.
Qed.

(** CPython 3.11 with standard output in UTF-8. *)
Definition cpython : Interp := {|
  pyfloat := Reference.special;
  float_repr := Reference.special_repr;
  isprintable := Reference.printable;
  json_loads := Reference.loads;
  exn_str := Reference.exn_text;
  encodable_char := Reference.utf8_char;
  json_error_one_line := one_line_loads;
  ascii_encodable := ascii_utf8;
  error_encodable := exn_text_encodable
|}.

(** ** The script on the reference interpreter *)

Import Reference.

Example run_zone_a :
  @run cpython (Exited 0 zone_a)
  = {| stdout := unlines [header1; header2; lit "ID: 1 - Name: Zone A"]; exit_code := 0 |}.
Proof. vm_compute. reflexivity. Qed.

(** A name in Arabic letters, sent as UTF-8 and printed as it is. *)
Example run_zone_dubai :
  @json_loads cpython zone_dubai = inr (PList [zone (PInt 7) (PStr [1583; 1576; 1610]%N)]) /\
  @run cpython (Exited 0 zone_dubai)
  = {| stdout := unlines [header1; header2; lit "ID: 7 - Name: " ++ [1583; 1576; 1610]%N];
       exit_code := 0 |}.
Proof. vm_compute. split; reflexivity. Qed.

Example run_empty_array :
  @run cpython (Exited 0 "[]")
  = {| stdout := unlines [header1; header2]; exit_code := 0 |}.
Proof. vm_compute. reflexivity. Qed.

Example run_empty_body :
  @run cpython (Exited 0 EmptyString)
  = {| stdout := unlines [lit "Error: Expecting value: line 1 column 1 (char 0)"];
       exit_code := 1 |}.
Proof. vm_compute. reflexivity. Qed.

Example run_a_number :
  @run cpython (Exited 0 a_number)
  = {| stdout := unlines [header1; header2; lit "Error: 'int' object is not iterable"];
       exit_code := 1 |}.
Proof. vm_compute. reflexivity. Qed.

(** A number of 4301 digits is valid JSON, and [json.loads] raises on
    it: the handler's line alone. *)
Example run_long_number :
  Rfc8259.valid_json long_number = true /\
  @run cpython (Exited 0 long_number)
  = {| stdout :=
         unlines [lit "Error: Exceeds the limit (4300 digits) for integer string conversion: value has 4301 digits; use sys.set_int_max_str_digits() to increase the limit"];
       exit_code := 1 |}.
Proof. vm_compute. split; reflexivity. Qed.

Example run_curl_not_found :
  @run cpython (NotStarted "[Errno 2] No such file or directory: 'curl'")
  = {| stdout := unlines [lit "Error: [Errno 2] No such file or directory: 'curl'"];
       exit_code := 1 |}.
Proof. vm_compute. reflexivity. Qed.

Example run_connection_refused :
  @run cpython (Exited 7 EmptyString)
  = {| stdout :=
         unlines [lit "Error: Command '['curl', '-X', 'GET', 'http://localhost:5000/api/free-zones']' returned non-zero exit status 7."];
       exit_code := 1 |}.
Proof. vm_compute. reflexivity. Qed.

Example run_curl_killed :
  @run cpython (Exited (-9) EmptyString)
  = {| stdout :=
         unlines [lit "Error: Command '['curl', '-X', 'GET', 'http://localhost:5000/api/free-zones']' died with <Signals.SIGKILL: 9>."];
       exit_code := 1 |}.
Proof. vm_compute. reflexivity. Qed.

Example run_values_of_all_types :
  lines (stdout (@run cpython (Exited 0 values_of_all_types)))
  = [header1; header2;
     lit "ID: None - Name: ['a\nb', True]";
     lit "ID: {'k': -7} - Name: -inf"].
Proof. vm_compute. reflexivity. Qed.

(** *** C1 *)



(** *** C2 *)

(** [NaN] is not valid JSON, and [json.loads] takes it for a float: both
    header lines are printed before the failure.  In an array, [NaN] and
    [Infinity] are listed, and the script exits with status 0. *)
Lemma C2_not_a_number_counterexample :
  (Rfc8259.valid_json not_a_number = false /\
   @json_loads cpython not_a_number = inr (PFloat Nan) /\
   lines (stdout (@run cpython (Exited 0 not_a_number)))
   = [header1; header2; lit "Error: 'float' object is not iterable"] /\
   exit_code (@run cpython (Exited 0 not_a_number)) = 1%Z) /\
  (Rfc8259.valid_json zone_of_specials = false /\
   @json_loads cpython zone_of_specials
   = inr (PList [zone (PFloat Nan) (PFloat (Inf false))]) /\
   @run cpython (Exited 0 zone_of_specials)
   = {| stdout := unlines [header1; header2; lit "ID: nan - Name: inf"];
        exit_code := 0 |}).
Proof. vm_compute. repeat split. Qed.

Lemma C2_error_page_witness :
  lines (stdout (@run cpython (Exited 0 error_page)))
  = [lit "Error: " ++ lit "Expecting value: line 1 column 1 (char 0)"] /\
  starts_with (lit "Error: ") (stdout (@run cpython (Exited 0 error_page))) = true /\
  exit_code (@run cpython (Exited 0 error_page)) = 1%Z /\
  ~ In header1 (lines (stdout (@run cpython (Exited 0 error_page)))) /\
  ~ In header2 (lines (stdout (@run cpython (Exited 0 error_page)))).
Proof.
  apply (@C2_rejected_body_single_error_line cpython error_page
           (ValueError "Expecting value: line 1 column 1 (char 0)")).
  vm_compute. reflexivity.
Defined.

(** *** C3 *)

(** The empty object and the empty string are valid JSON and no arrays,
    and the script succeeds on them. *)
Lemma C3_empty_object_counterexample :
  (Rfc8259.valid_json empty_object = true /\
   @json_loads cpython empty_object = inr (PDict []) /\
   @is_array special (PDict []) = false /\
   @run cpython (Exited 0 empty_object)
   = {| stdout := unlines [header1; header2]; exit_code := 0 |}) /\
  (Rfc8259.valid_json empty_string = true /\
   @json_loads cpython empty_string = inr (PStr []) /\
   @is_array special (PStr []) = false /\
   @run cpython (Exited 0 empty_string)
   = {| stdout := unlines [header1; header2]; exit_code := 0 |}).
Proof. vm_compute. repeat split. Qed.

Lemma C3_a_number_witness :
  exists (printed : list text) (e : exn),
    (printed = [] \/ printed = [header1; header2]) /\
    @run cpython (Exited 0 a_number)
    = {| stdout := unlines (printed ++ [@error_line cpython e]); exit_code := 1 |}.
Proof.
  apply (@C3_not_array_nor_empty_fails cpython a_number).
  vm_compute. reflexivity.
Defined.

(** *** C4 *)



(** *** C5 *)

Lemma C5_name_missing_witness :
  @run cpython (Exited 0 name_missing)
  = {| stdout :=
         unlines (header1 :: header2
                    :: [lit "ID: 1 - Name: A"] ++ [@error_line cpython (KeyError "name")]);
       exit_code := 1 |} /\
  forall (body' : string) (v' : pyval special) (zones' : list (pyval special)),
    @json_loads cpython body' = inr v' ->
    @py_iter cpython v' = inr zones' ->
    firstn 2 zones'
    = firstn 2 [zone (PInt 1) (PStr (lit "A")); PDict [(lit "id", PInt 2)]] ->
    @run cpython (Exited 0 body') = @run cpython (Exited 0 name_missing).
Proof.
  apply (proj1 (@C5_failure_keeps_printed_lines cpython name_missing
                  (PList [zone (PInt 1) (PStr (lit "A")); PDict [(lit "id", PInt 2)]])
                  ltac:(vm_compute; reflexivity))
           [zone (PInt 1) (PStr (lit "A")); PDict [(lit "id", PInt 2)]]
           1 [lit "ID: 1 - Name: A"] (KeyError "name")).
  - reflexivity.
  - vm_compute. reflexivity.
  - vm_compute. reflexivity.
Defined.

(** *** C6 *)

Lemma C6_connection_refused_witness :
  @run cpython (Exited 7 EmptyString)
  = {| stdout := unlines [@error_line cpython (CalledProcessError 7 curl_cmd EmptyString)];
       exit_code := 1 |}.
Proof.
  apply (@C6_nonzero_exit_is_failure cpython 7 EmptyString). lia.
Defined.

(** *** C7 *)

Lemma C7_zone_a_witness :
  @format_zone cpython (zone (PInt 1) (PStr (lit "Zone A")))
  = inr (lit "ID: " ++ py_str printable special_repr (PInt 1)
           ++ lit " - Name: " ++ py_str printable special_repr (PStr (lit "Zone A"))) /\
  @print_zone cpython (zone (PInt 1) (PStr (lit "Zone A"))) []
  = @print cpython
      (lit "ID: " ++ py_str printable special_repr (PInt 1)
         ++ lit " - Name: " ++ py_str printable special_repr (PStr (lit "Zone A"))) [] /\
  (@encodable cpython (py_str printable special_repr (PInt 1)) = true ->
   @encodable cpython (py_str printable special_repr (PStr (lit "Zone A"))) = true ->
   @print_zone cpython (zone (PInt 1) (PStr (lit "Zone A"))) []
   = (inr tt,
      [] ++ (lit "ID: " ++ py_str printable special_repr (PInt 1)
               ++ lit " - Name: " ++ py_str printable special_repr (PStr (lit "Zone A")))
         ++ nl)) /\
  forall a b : text,
    @PInt special 1 = PStr a -> @PStr special (lit "Zone A") = PStr b ->
    @format_zone cpython (zone (PInt 1) (PStr (lit "Zone A")))
    = inr (lit "ID: " ++ a ++ lit " - Name: " ++ b) /\
    (@encodable cpython a = true -> @encodable cpython b = true ->
     @print_zone cpython (zone (PInt 1) (PStr (lit "Zone A"))) []
     = (inr tt, [] ++ (lit "ID: " ++ a ++ lit " - Name: " ++ b) ++ nl)).
Proof.
  apply (@C7_record_line_verbatim cpython
           [(lit "id", PInt 1); (lit "name", PStr (lit "Zone A"))]
           (PInt 1) (PStr (lit "Zone A")) []).
  - reflexivity.
  - reflexivity.
Defined.

(** *** C9 *)

Lemma C9_empty_object_and_string_witness :
  (@is_array special (PDict []) = false /\
   @run cpython (Exited 0 empty_object)
   = {| stdout := unlines [header1; header2]; exit_code := 0 |} /\
   lines (stdout (@run cpython (Exited 0 empty_object))) = [header1; header2]) /\
  (@is_array special (PStr []) = false /\
   @run cpython (Exited 0 empty_string)
   = {| stdout := unlines [header1; header2]; exit_code := 0 |} /\
   lines (stdout (@run cpython (Exited 0 empty_string))) = [header1; header2]).
Proof.
  split.
  - apply (@C9_empty_object_or_string_succeeds cpython empty_object (PDict [])).
    + vm_compute. reflexivity.
    + reflexivity.
  - apply (@C9_empty_object_or_string_succeeds cpython empty_string (PStr [])).
    + vm_compute. reflexivity.
    + reflexivity.
Defined.

(** *** C10 *)

Lemma C10_extra_fields_witness :
  @json_loads cpython extra_fields
  = inr (PList [PDict [(lit "country", PStr (lit "AE")); (lit "id", PStr (lit "dmcc"));
                       (lit "name", PStr (lit "DMCC")); (lit "open", PBool true)]]) /\
  (@print_zone cpython
     (PDict [(lit "country", PStr (lit "AE")); (lit "id", PStr (lit "dmcc"));
             (lit "name", PStr (lit "DMCC")); (lit "open", PBool true)]) []
   = @print_zone cpython
       (PDict [(lit "id", PStr (lit "dmcc")); (lit "name", PStr (lit "DMCC"))]) [] /\
   @format_zone cpython
     (PDict [(lit "country", PStr (lit "AE")); (lit "id", PStr (lit "dmcc"));
             (lit "name", PStr (lit "DMCC")); (lit "open", PBool true)])
   = @format_zone cpython
       (PDict [(lit "id", PStr (lit "dmcc")); (lit "name", PStr (lit "DMCC"))]) /\
   (@encodable cpython (@str_ cpython (PStr (lit "dmcc"))) = true ->
    @encodable cpython (@str_ cpython (PStr (lit "DMCC"))) = true ->
    fst (@print_zone cpython
           (PDict [(lit "country", PStr (lit "AE")); (lit "id", PStr (lit "dmcc"));
                   (lit "name", PStr (lit "DMCC")); (lit "open", PBool true)]) [])
    = inr tt)).
Proof.
  split.
  - vm_compute. reflexivity.
  - apply (@C10_extra_fields_ignored cpython
             [(lit "country", PStr (lit "AE")); (lit "id", PStr (lit "dmcc"));
              (lit "name", PStr (lit "DMCC")); (lit "open", PBool true)]
             (PStr (lit "dmcc")) (PStr (lit "DMCC")) []).
    + reflexivity.
    + reflexivity.
Defined.

(** *** More *)

Lemma X4_keys_missing_witness :
  exists texts : list text,
    map (@format_zone cpython) [zone (PInt 1) (PStr (lit "A"))] = map inr texts /\
    @run cpython (Exited 0 keys_missing)
    = {| stdout :=
           unlines (header1 :: header2 :: texts ++ [@error_line cpython (KeyError "id")]);
         exit_code := 1 |}.
Proof.
  apply (@X4_error_names_first_missing_key cpython keys_missing
           [zone (PInt 1) (PStr (lit "A"))]
           [PDict [(lit "id", PInt 3)]]
           [(lit "label", PStr (lit "B"))] "id").
  - vm_compute. reflexivity.
  - reflexivity.
  - vm_compute. reflexivity.
  - reflexivity.
Defined.

Lemma X5_values_of_all_types_witness :
  exists texts : list text,
    map (@format_zone cpython)
        [zone PNone (PList [PStr (lit "a" ++ nl ++ lit "b"); PBool true]);
         zone (PDict [(lit "k", PInt (-7))]) (PFloat (Inf true))]
    = map inr texts /\
    lines (stdout (@run cpython (Exited 0 values_of_all_types)))
    = header1 :: header2 :: texts /\
    length (lines (stdout (@run cpython (Exited 0 values_of_all_types)))) = 2 + 2 /\
    exit_code (@run cpython (Exited 0 values_of_all_types)) = 0%Z.
Proof.
  apply (@X5_plain_zones_one_line_each cpython values_of_all_types
           [zone PNone (PList [PStr (lit "a" ++ nl ++ lit "b"); PBool true]);
            zone (PDict [(lit "k", PInt (-7))]) (PFloat (Inf true))]).
  - intros [|[|]]; reflexivity.
  - vm_compute. reflexivity.
  - reflexivity.
  - vm_compute. reflexivity.
Defined.

Lemma X6_zone_b_added_witness :
  (exists rest : text,
     stdout (@run cpython (Exited 0 two_zones))
     = stdout (@run cpython (Exited 0 zone_a)) ++ rest) /\
  (exit_code (@run cpython (Exited 0 zone_a)) = 1%Z ->
   @run cpython (Exited 0 two_zones) = @run cpython (Exited 0 zone_a)).
Proof.
  apply (@X6_more_elements_extend_output cpython zone_a two_zones
           [zone (PInt 1) (PStr (lit "Zone A"))]
           [zone (PInt 2) (PStr (lit "Zone B"))]).
  - vm_compute. reflexivity.
  - vm_compute. reflexivity.
Defined.

Lemma X7_name_of_two_lines_witness :
  exists texts : list text,
    map (@format_zone cpython) [zone (PInt 1) (PStr (lit "a" ++ nl ++ lit "b"))]
    = map inr texts /\
    length (lines (stdout (@run cpython (Exited 0 name_of_two_lines))))
    = 2 + 1 + list_sum (map line_feeds texts).
Proof.
  apply (@X7_line_count_of_listing cpython name_of_two_lines
           [zone (PInt 1) (PStr (lit "a" ++ nl ++ lit "b"))]).
  - vm_compute. reflexivity.
  - reflexivity.
  - vm_compute. reflexivity.
Defined.
